(** * The GA4GH server frontend (ga4gh/frontend.py)

    A shallow embedding of the request-routing, versioning and
    authentication-gating code of the Flask frontend, and the properties of
    it that the specification states.

    Python values are kept as the code has them: version components stay
    strings, dictionaries are finite maps or association lists, exceptions
    are values of [exn] carried by [result], and the mutable server state
    (token map, permission table, session) is threaded explicitly. *)

From Stdlib Require Import String Ascii List Bool Arith ZArith Lia Permutation.
From stdpp Require Import base option gmap strings list fin_maps pretty.

Import ListNotations.
Local Open Scope string_scope.
Local Open Scope list_scope.

(** ** Exceptions and results *)

(** The exception classes that the frontend raises or lets through.  The
    [ga4gh.exceptions] classes are named as in the source;
    [NotAuthenticatedException] takes an optional argument (line 407 passes
    the user id, lines 399 and 412 pass nothing). *)
Inductive exn : Type :=
  | TypeError
  | KeyError (key : string)
  | IndexError
  | ValidationError
  | BadRequest
  | ExternalError (what : string)
  | NotAuthenticatedException (arg : option string)
  | NotImplementedException
  | PathNotFoundException
  | VersionNotSupportedException
  | MethodNotAllowedException
  | UnsupportedMediaTypeException.

Inductive result (A : Type) : Type :=
  | Ok (a : A)
  | Raise (e : exn).
Arguments Ok {A} a.
Arguments Raise {A} e.

Definition isNotAuthenticated (e : exn) : bool :=
  match e with NotAuthenticatedException _ => true | _ => false end.

Definition rbind {A B} (r : result A) (k : A -> result B) : result B :=
  match r with
  | Ok a => k a
  | Raise e => Raise e
  end.

Declare Scope result_scope.
Delimit Scope result_scope with result.
Notation "'try!' x <- r ; k" := (rbind r (fun x => k))
  (at level 10, x name, r at level 100, k at level 200) : result_scope.

(** ** Python string primitives *)

Module PyStr.

Definition chars (s : string) : list ascii := list_ascii_of_string s.
Definition of_chars (l : list ascii) : string := string_of_list_ascii l.

Definition mem_char (c : ascii) (cs : string) : bool :=
  existsb (Ascii.eqb c) (chars cs).

(** [s.lstrip(cs)]: drop leading characters that occur in [cs]. *)
Fixpoint lstrip (cs : string) (s : string) : string :=
  match s with
  | EmptyString => EmptyString
  | String c s' => if mem_char c cs then lstrip cs s' else s
  end.

Definition reverse (s : string) : string := of_chars (rev (chars s)).

Definition rstrip (cs : string) (s : string) : string :=
  reverse (lstrip cs (reverse s)).

(** [s.strip(cs)]: both ends. *)
Definition strip (cs : string) (s : string) : string :=
  rstrip cs (lstrip cs s).

(** [s.split(sep)] for a one-character separator; never empty:
    [''.split('.') == ['']]. *)
Fixpoint split (sep : ascii) (s : string) : list string :=
  match s with
  | EmptyString => [EmptyString]
  | String c s' =>
      if Ascii.eqb c sep then EmptyString :: split sep s'
      else match split sep s' with
           | [] => [String c EmptyString]
           | w :: ws => String c w :: ws
           end
  end.

(** [sub in s] on strings. *)
Definition contains (sub s : string) : bool :=
  match String.index 0 sub s with
  | Some _ => true
  | None => false
  end.

Definition startswith (p s : string) : bool := String.prefix p s.

Definition endswith (p s : string) : bool :=
  String.prefix (reverse p) (reverse s).

Definition truthy (s : string) : bool :=
  match s with EmptyString => false | _ => true end.

End PyStr.

(** ** Version (lines 67-109) *)

Module Version.

(** [self.version = (major, minor, revision)]; the components are the
    pieces of the string, kept as strings. *)
Record t : Type := Version { major : string; minor : string; revision : string }.

Definition currentString : string := "current".

(** [__eq__]: tuple equality of the three components. *)
Definition eqb (a b : t) : bool :=
  String.eqb (major a) (major b)
  && String.eqb (minor a) (minor b)
  && String.eqb (revision a) (revision b).

Definition components (versionString : string) : list string :=
  PyStr.split "." (PyStr.strip "vV" versionString).

(** The constructor is applied to the unpacked list of pieces: any number
    of pieces other than three is a [TypeError] of the call. *)
Definition parseString (versionString : string) : result t :=
  match components versionString with
  | [a; b; c] => Ok (Version a b c)
  | _ => Raise TypeError
  end.

Section WithProtocol.
(** [protocol.version], from the [ga4gh.protocol] module. *)
Variable protocol_version : string.

Definition isCurrentVersion (versionString : string) : result bool :=
  if String.eqb versionString currentString then Ok true
  else
    (try! v <- parseString versionString;
     try! p <- parseString protocol_version;
     Ok (eqb v p))%result.
End WithProtocol.

Definition getVersionForUrl (versionString : string) : string :=
  if PyStr.startswith "v" versionString then versionString
  else "v" +:+ versionString.

(** The spec's reading of a malformed version string: after the leading
    version marker, a wrong number of dot-separated components, or a
    component that is not a number. *)
Definition numeric (s : string) : bool :=
  PyStr.truthy s
  && forallb (fun c => Nat.leb 48 (nat_of_ascii c) && Nat.leb (nat_of_ascii c) 57)
       (PyStr.chars s).

Definition spec_components (versionString : string) : list string :=
  PyStr.split "." (PyStr.lstrip "vV" versionString).

Definition malformed (versionString : string) : bool :=
  negb (Nat.eqb (length (spec_components versionString)) 3)
  || negb (forallb numeric (spec_components versionString)).

End Version.

(** ** Routing (lines 41-64 and the route declarations) *)

Module Routing.

(** The converters of [app.url_map.converters] that the rules use:
    werkzeug's default one, its ['path'] one (of Flask's rule for static
    files), and ['no'] registered at line 64. *)
Inductive Converter : Type :=
  | UnicodeConverter
  | PathConverter
  | NoConverter (items : list string).

Definition in_items (value : string) (items : list string) : bool :=
  existsb (String.eqb value) items.

(** [to_python]; [NoConverter.to_python] is lines 58-61. *)
Definition to_python (c : Converter) (value : string) : result string :=
  match c with
  | UnicodeConverter => Ok value
  | PathConverter => Ok value
  | NoConverter items =>
      if in_items value items then Raise ValidationError else Ok value
  end.

Inductive Part : Type :=
  | Static (text : string)
  | Dynamic (conv : Converter) (name : string).

Definition drop_last (s : string) : string :=
  PyStr.of_chars (removelast (PyStr.chars s)).

(** [no(search)] gives the converter name and its arguments. *)
Definition get_converter (spec : string) : option Converter :=
  match PyStr.split "(" spec with
  | [name] =>
      if String.eqb name "default" then Some UnicodeConverter
      else if String.eqb name "path" then Some PathConverter
      else if String.eqb name "no" then Some (NoConverter [])
      else None
  | [name; args] =>
      if String.eqb name "no" && PyStr.endswith ")" args
      then Some (NoConverter (PyStr.split "," (drop_last args)))
      else None
  | _ => None
  end.

(** One path segment of a rule: [<name>], [<converter(args):name>] or
    literal text. *)
Definition parse_part (seg : string) : option Part :=
  if PyStr.startswith "<" seg && PyStr.endswith ">" seg then
    match seg with
    | String _ rest =>
        match PyStr.split ":" (drop_last rest) with
        | [name] => Some (Dynamic UnicodeConverter name)
        | [spec; name] =>
            match get_converter spec with
            | Some c => Some (Dynamic c name)
            | None => None
            end
        | _ => None
        end
    | EmptyString => None
    end
  else Some (Static seg).

Fixpoint sequence {A} (l : list (option A)) : option (list A) :=
  match l with
  | [] => Some []
  | Some a :: l' =>
      match sequence l' with Some r => Some (a :: r) | None => None end
  | None :: _ => None
  end.

(** The segments between the slashes of a path that starts with one. *)
Definition segments (path : string) : list string :=
  PyStr.split "/" (PyStr.lstrip "/" path).

Definition parse_rule (rule : string) : option (list Part) :=
  sequence (map parse_part (segments rule)).

(** A rule matches when every static part equals its segment and every
    placeholder takes a non-empty segment that its converter accepts; a
    [ValidationError] of the converter makes the rule not match.  A path
    placeholder that ends its rule (the only place the table has one) takes
    all that is left of the path, slashes too, when that starts with a
    character other than a slash. *)
Fixpoint match_parts (parts : list Part) (segs : list string)
  : option (list (string * string)) :=
  match parts, segs with
  | [], [] => Some []
  | Static text :: parts', seg :: segs' =>
      if String.eqb text seg then match_parts parts' segs' else None
  | Dynamic PathConverter name :: parts', seg :: segs' =>
      match parts' with
      | [] =>
          if PyStr.truthy seg then
            match to_python PathConverter (String.concat "/" (seg :: segs')) with
            | Ok value => Some [(name, value)]
            | Raise _ => None
            end
          else None
      | _ :: _ => None
      end
  | Dynamic conv name :: parts', seg :: segs' =>
      if PyStr.truthy seg then
        match to_python conv seg with
        | Ok value =>
            match match_parts parts' segs' with
            | Some rv => Some ((name, value) :: rv)
            | None => None
            end
        | Raise _ => None
        end
      else None
  | _, _ => None
  end.

Record Rule : Type :=
  { rule : string; endpoint : string; methods : list string }.

Definition has_method (m : string) (ms : list string) : bool :=
  existsb (String.eqb m) ms.

(** [app.add_url_rule]: the methods default to GET, Flask adds OPTIONS
    and werkzeug adds HEAD to a rule that has GET. *)
Definition add_url_rule (path name : string) (declared : option (list string))
  : Rule :=
  let ms := match declared with Some ms => ms | None => ["GET"] end in
  let ms := if has_method "OPTIONS" ms then ms else ms ++ ["OPTIONS"] in
  let ms := if has_method "GET" ms && negb (has_method "HEAD" ms)
            then ms ++ ["HEAD"] else ms in
  {| rule := path; endpoint := name; methods := ms |}.

Definition SEARCH_ENDPOINT_METHODS : list string := ["POST"; "OPTIONS"].

Definition route (path name : string) : Rule := add_url_rule path name None.

Definition route_methods (path : string) (ms : list string) (name : string)
  : Rule := add_url_rule path name (Some ms).

(** [DisplayedRoute(path, postMethod)] applied to the function [name]. *)
Definition DisplayedRoute (path : string) (postMethod : bool) (name : string)
  : Rule :=
  add_url_rule path name
    (if postMethod then Some SEARCH_ENDPOINT_METHODS else None).

(** The rules of [app.url_map], in the order they are registered: the
    rule for static files that [flask.Flask(__name__)] registers at line 36,
    then those of the decorators in the order of the file.  The map itself
    keeps its rules sorted by a key of werkzeug's, which differs between
    releases; [resolve] therefore takes the order as an argument, and what
    is proved of resolution is proved for every order of these rules. *)
Definition url_map : list Rule :=
  [ route "/static/<path:filename>" "static";
    route "/" "index";
    route "/<version>" "indexRedirect";
    DisplayedRoute "/<version>/references/<id>" false "getReference";
    DisplayedRoute "/<version>/referencesets/<id>" false "getReferenceSet";
    DisplayedRoute "/<version>/references/<id>/bases" false "listReferenceBases";
    DisplayedRoute "/<version>/callsets/search" true "searchCallSets";
    DisplayedRoute "/<version>/readgroupsets/search" true "searchReadGroupSets";
    DisplayedRoute "/<version>/reads/search" true "searchReads";
    DisplayedRoute "/<version>/referencesets/search" true "searchReferenceSets";
    DisplayedRoute "/<version>/references/search" true "searchReferences";
    DisplayedRoute "/<version>/variantsets/search" true "searchVariantSets";
    DisplayedRoute "/<version>/variants/search" true "searchVariants";
    DisplayedRoute "/<version>/datasets/search" true "searchDatasets";
    DisplayedRoute "/<version>/variantsets/<no(search):id>" false "getVariantSet";
    route "/<version>/callsets/<no(search):id>" "getCallset";
    route "/<version>/alleles/<no(search):id>" "getAllele";
    route "/<version>/variants/<no(search):id>" "getVariant";
    route "/<version>/variantsets/<vsid>/sequences/<sid>" "getVariantSetSequence";
    route "/<version>/feature/<id>" "getFeature";
    route "/<version>/sequences/<id>/bases" "getSequenceBases";
    route "/<version>/mode/<mode>" "getMode";
    route "/<version>/datasets/<no(search):id>" "getDataset";
    route "/<version>/readgroupsets/<no(search):id>" "getReadGroupSet";
    route "/<version>/readgroups/<id>" "getReadGroup";
    route_methods "/<version>/genotypephenotype/search" SEARCH_ENDPOINT_METHODS
      "searchGenotypePephenotype";
    route_methods "/<version>/individuals/search" SEARCH_ENDPOINT_METHODS
      "searchIndividuals";
    route_methods "/<version>/samples/search" SEARCH_ENDPOINT_METHODS
      "searchSamples";
    route_methods "/<version>/experiments/search" SEARCH_ENDPOINT_METHODS
      "searchExperiments";
    route_methods "/<version>/individualgroups/search" SEARCH_ENDPOINT_METHODS
      "searchIndividualGroups";
    route_methods "/<version>/analyses/search" SEARCH_ENDPOINT_METHODS
      "searchAnalyses";
    route_methods "/<version>/sequences/search" SEARCH_ENDPOINT_METHODS
      "searchSequences";
    route_methods "/<version>/joins/search" SEARCH_ENDPOINT_METHODS
      "searchJoins";
    route_methods "/<version>/subgraph/segments" SEARCH_ENDPOINT_METHODS
      "subgraphSegments";
    route_methods "/<version>/subgraph/joins" SEARCH_ENDPOINT_METHODS
      "subgraphJoins";
    route_methods "/<version>/features/search" SEARCH_ENDPOINT_METHODS
      "searchFeatures";
    route_methods "/<version>/variantsets/<id>/sequences/search"
      SEARCH_ENDPOINT_METHODS "searchVariantSetSequences";
    route_methods "/<version>/alleles/search" SEARCH_ENDPOINT_METHODS
      "searchAlleles";
    route_methods "/oauth2callback" ["GET"] "oidcCallback" ].

Definition rule_match (r : Rule) (path : string)
  : option (list (string * string)) :=
  match parse_rule (rule r) with
  | Some parts => match_parts parts (segments path)
  | None => None
  end.

Inductive Resolution : Type :=
  | Matched (name : string) (args : list (string * string))
  | MethodNotAllowed (valid_methods : list string)
  | NotFound.

(** The matching loop of the URL map over its rules, in the order it
    keeps them: the first rule that matches path and method wins; a rule
    that matches the path only adds its methods to [have_match_for]. *)
Fixpoint match_rules (rules : list Rule) (method path : string)
    (have_match_for : list string) : Resolution :=
  match rules with
  | [] =>
      match have_match_for with
      | [] => NotFound
      | _ => MethodNotAllowed have_match_for
      end
  | r :: rules' =>
      match rule_match r path with
      | None => match_rules rules' method path have_match_for
      | Some rv =>
          if has_method method (methods r) then Matched (endpoint r) rv
          else match_rules rules' method path (have_match_for ++ methods r)
      end
  end.

Definition resolve (rules : list Rule) (method path : string) : Resolution :=
  match_rules rules method path [].

End Routing.

(** ** Python values, requests and the server state *)

(** The values that JSON bodies, provider messages and sessions hold. *)
#[local] Set Warnings "-register-all".
Inductive pyval : Type :=
  | PNone
  | PBool (b : bool)
  | PInt (n : Z)
  | PStr (s : string)
  | PList (items : list pyval)
  | PDict (entries : list (string * pyval)).

Module Py.

Definition truthy (v : pyval) : bool :=
  match v with
  | PNone => false
  | PBool b => b
  | PInt n => negb (Z.eqb n 0)
  | PStr s => PyStr.truthy s
  | PList l => match l with [] => false | _ => true end
  | PDict d => match d with [] => false | _ => true end
  end.

Fixpoint assoc {A} (k : string) (d : list (string * A)) : option A :=
  match d with
  | [] => None
  | (k', v) :: d' => if String.eqb k k' then Some v else assoc k d'
  end.

Definition is_str (k : string) (v : pyval) : bool :=
  match v with PStr s => String.eqb s k | _ => false end.

(** [k in v] for a string [k]: key of a dict, element of a list,
    substring of a string; other values are not iterable. *)
Definition contains (k : string) (v : pyval) : result bool :=
  match v with
  | PDict d => Ok (match assoc k d with Some _ => true | None => false end)
  | PList l => Ok (existsb (is_str k) l)
  | PStr s => Ok (PyStr.contains k s)
  | _ => Raise TypeError
  end.

(** [v[k]] for a string [k]: only a dict can be indexed by a string. *)
Definition getitem (v : pyval) (k : string) : result pyval :=
  match v with
  | PDict d =>
      match assoc k d with Some x => Ok x | None => Raise (KeyError k) end
  | _ => Raise TypeError
  end.

(** [for x in v]. *)
Definition iter (v : pyval) : result (list pyval) :=
  match v with
  | PList l => Ok l
  | PDict d => Ok (map (fun kv => PStr (fst kv)) d)
  | PStr s => Ok (map (fun c => PStr (String c EmptyString)) (PyStr.chars s))
  | _ => Raise TypeError
  end.

(** [v == o] where [o] is the result of [session.get] on a key that only
    ever holds a string: [None] or that string. *)
Definition eq_optstr (v : pyval) (o : option string) : bool :=
  match v, o with
  | PNone, None => true
  | PStr a, Some b => String.eqb a b
  | _, _ => false
  end.

(** [a or b] on optional strings ([None] and [''] are falsy). *)
Definition or_ (a b : option string) : option string :=
  match a with
  | Some s => if PyStr.truthy s then a else b
  | None => b
  end.

(** [x in collection] for a collection of strings: only an equal string
    is in it. *)
Definition in_strings (x : pyval) (l : list string) : bool :=
  match x with
  | PStr s => existsb (String.eqb s) l
  | _ => false
  end.

End Py.

(** Messages of the OIDC client library: a class and a dict. *)
Inductive MsgClass : Type :=
  | AuthorizationResponse
  | AccessTokenResponse
  | OtherMessage (name : string).

Record Message : Type :=
  { mclass : MsgClass; to_dict : list (string * pyval) }.

Definition isAuthorizationResponse (m : Message) : bool :=
  match mclass m with AuthorizationResponse => true | _ => false end.

Definition isAccessTokenResponse (m : Message) : bool :=
  match mclass m with AccessTokenResponse => true | _ => false end.

Definition msg_getitem (m : Message) (k : string) : result pyval :=
  Py.getitem (PDict (to_dict m)) k.

(** The [args] dicts built at lines 360-367 and 729-734. *)
Record AuthorizationArgs : Type :=
  { a_client_id : string; a_response_type : string; a_scope : list string;
    a_nonce : string; a_redirect_uri : string; a_state : string }.

Record TokenArgs : Type :=
  { t_code : pyval; t_redirect_uri : string;
    t_client_id : string; t_client_secret : string }.

(** What the frontend uses of [app.oidcClient]; the calls to the provider
    return a value or raise. *)
Record OidcClient : Type :=
  { client_id : string;
    client_secret : string;
    redirect_uris : list string;
    parse_response : gmap string string -> result Message;
    do_authorization_request : AuthorizationArgs -> string -> result string;
    do_access_token_request : pyval -> TokenArgs -> result Message;
    do_user_info_request : pyval -> result Message }.

Record Url : Type := { scheme : string; netloc : string; urlpath : string }.

Definition urlunparse (u : Url) : string :=
  scheme u +:+ "://" +:+ netloc u +:+ urlpath u.

(** What [configure] sets up once. *)
Record App : Type :=
  { oidcClient : option OidcClient;
    protocol_version : string;
    rndstr : nat -> nat -> string;
    backend : string -> string -> result string;
    myPort : N;
    hostname : string;
    url_for_index : Url }.

(** [flask.session]: the four keys the frontend writes. *)
Record Session : Type :=
  { s_state : option string;
    s_nonce : option string;
    s_key : option string;
    s_userId : option pyval }.

(** The record stored in [app.tokenMap] at lines 752-756. *)
Record TokenEntry : Type :=
  { code : pyval;
    state : pyval;
    accessTokenResponse : pyval;
    userId : pyval;
    userInfo : Message }.

(** The state that a request can change. *)
Record World : Type :=
  { tokenMap : gmap string TokenEntry;
    permissions : gmap string (list string);
    session : Session;
    draws : nat;
    objects : nat;
    backendCalls : list (string * string) }.

(** [flask.request]: [endpoint] is the endpoint of the rule that matched
    ([None] when none did), [args] the query parameters in order,
    [get_data] the body as it came and [get_json] what [get_json()] gives
    for it: the parsed body, [None], or an exception. *)
Record Request : Type :=
  { method : string;
    endpoint : option string;
    args : list (string * string);
    mimetype : string;
    get_data : string;
    get_json : result pyval }.

Inductive Response : Type :=
  | FlaskResponse (body : string) (status : nat) (mime : string)
      (headers : list (string * string))
  | Redirect (location : string)
  | RenderedTemplate (name : string).

Definition isRedirect (r : Response) : bool :=
  match r with Redirect _ => true | _ => false end.

(** ** State and exceptions together *)

Definition M (A : Type) : Type := World -> result A * World.

Definition ret {A} (a : A) : M A := fun w => (Ok a, w).
Definition raise {A} (e : exn) : M A := fun w => (Raise e, w).
Definition lift {A} (r : result A) : M A := fun w => (r, w).
Definition bind {A B} (m : M A) (k : A -> M B) : M B :=
  fun w => match m w with
           | (Ok a, w') => k a w'
           | (Raise e, w') => (Raise e, w')
           end.
Definition get : M World := fun w => (Ok w, w).
Definition modify (f : World -> World) : M unit := fun w => (Ok tt, f w).

Declare Scope flask_scope.
Delimit Scope flask_scope with flask.
Notation "x <- m ;; k" := (bind m (fun x => k))
  (at level 100, m at next level, right associativity) : flask_scope.
Notation "m ;;; k" := (bind m (fun _ => k))
  (at level 100, right associativity) : flask_scope.
Local Open Scope flask_scope.

Definition set_session (f : Session -> Session) : M unit :=
  modify (fun w =>
    {| tokenMap := tokenMap w; permissions := permissions w;
       session := f (session w); draws := draws w; objects := objects w;
       backendCalls := backendCalls w |}).

Definition set_tokenMap (f : gmap string TokenEntry -> gmap string TokenEntry)
  : M unit :=
  modify (fun w =>
    {| tokenMap := f (tokenMap w); permissions := permissions w;
       session := session w; draws := draws w; objects := objects w;
       backendCalls := backendCalls w |}).

(** [oic.oauth2.rndstr(size)]: the next draw of the random source. *)
Definition draw (app : App) (size : nat) : M string :=
  fun w =>
    (Ok (rndstr app size (draws w)),
     {| tokenMap := tokenMap w; permissions := permissions w;
        session := session w; draws := S (draws w); objects := objects w;
        backendCalls := backendCalls w |}).

(** A list display or comprehension makes a new object; [is] compares the
    identities. *)
Record ListObject : Type := { identity : nat; contents : list pyval }.

Definition new_list (l : list pyval) : M ListObject :=
  fun w =>
    (Ok {| identity := objects w; contents := l |},
     {| tokenMap := tokenMap w; permissions := permissions w;
        session := session w; draws := draws w; objects := S (objects w);
        backendCalls := backendCalls w |}).

Definition py_is (a b : ListObject) : bool := Nat.eqb (identity a) (identity b).

(** A call of a backend method: recorded, then answered by the backend. *)
Definition call_backend (app : App) (operation data : string) : M string :=
  fun w =>
    (backend app operation data,
     {| tokenMap := tokenMap w; permissions := permissions w;
        session := session w; draws := draws w; objects := objects w;
        backendCalls := backendCalls w ++ [(operation, data)] |}).

(** ** The frontend (lines 288-503 and 702-766) *)

Definition MIMETYPE : string := "application/json".
Definition SECRET_KEY_LENGTH : nat := 24.

Definition getFlaskResponse (responseString : string) (httpStatus : nat)
  : Response :=
  FlaskResponse responseString httpStatus MIMETYPE [].

Definition handleHttpPost (app : App) (request : Request) (operation : string)
  : M Response :=
  if negb (String.eqb (mimetype request) MIMETYPE)
  then raise UnsupportedMediaTypeException
  else
    responseStr <- call_backend app operation (get_data request);;
    ret (getFlaskResponse responseStr 200).

Definition handleHttpGet (app : App) (id_ : string) (operation : string)
  : M Response :=
  responseStr <- call_backend app operation id_;;
  ret (getFlaskResponse responseStr 200).

Definition handleHttpOptions : Response :=
  FlaskResponse "" 200 MIMETYPE
    [("Access-Control-Request-Methods", "GET,POST,OPTIONS")].

Definition assertCorrectVersion (app : App) (version : string) : M unit :=
  isCurrent <- lift (Version.isCurrentVersion (protocol_version app) version);;
  if negb isCurrent then raise VersionNotSupportedException else ret tt.

(** [flask.request.args]: a multi-dict, looked up by its first value. *)
Definition args_get (request : Request) (k : string) : option string :=
  Py.assoc k (args request).

Definition args_contains (request : Request) (k : string) : bool :=
  match args_get request k with Some _ => true | None => false end.

(** [dict(flask.request.args.iteritems(multi=True))]: of a repeated key
    the last value stays. *)
Definition dict_of_items (items : list (string * string)) : gmap string string :=
  fold_left (fun d kv => <[fst kv := snd kv]> d) items ∅.

Definition first_redirect_uri (client : OidcClient) : result string :=
  match redirect_uris client with
  | uri :: _ => Ok uri
  | [] => Raise IndexError
  end.

Definition startLogin (app : App) (client : OidcClient) : M Response :=
  st <- draw app SECRET_KEY_LENGTH;;
  set_session (fun s =>
    {| s_state := Some st; s_nonce := s_nonce s; s_key := s_key s;
       s_userId := s_userId s |});;;
  nn <- draw app SECRET_KEY_LENGTH;;
  set_session (fun s =>
    {| s_state := s_state s; s_nonce := Some nn; s_key := s_key s;
       s_userId := s_userId s |});;;
  uri <- lift (first_redirect_uri client);;
  let args :=
    {| a_client_id := client_id client; a_response_type := "code";
       a_scope := ["openid"; "profile"; "email"]; a_nonce := nn;
       a_redirect_uri := uri; a_state := st |} in
  url <- lift (do_authorization_request client args st);;
  ret (Redirect url).

(** [app.tokenMap.get(key)]. *)
Definition tokenMap_get (w : World) (key : option string) : option TokenEntry :=
  match key with
  | Some k => tokenMap w !! k
  | None => None
  end.

(** [userId in app.permissions]: the keys are strings; a list or a dict
    cannot be hashed. *)
Definition permissions_get (w : World) (user : pyval)
  : result (option (list string)) :=
  match user with
  | PStr u => Ok (permissions w !! u)
  | PList _ | PDict _ => Raise TypeError
  | _ => Ok None
  end.

Definition str_of_pyval (v : pyval) : option string :=
  match v with PStr s => Some s | _ => None end.

(** Lines 403-412: the check of the requested datasets, for the token
    record [entry] that the key resolved to. *)
Definition checkDatasets (entry : TokenEntry) (request : Request)
  : M (option Response) :=
  body <- lift (get_json request);;
  let jsonBody := if Py.truthy body then body else PDict [] in
  has <- lift (Py.contains "datasetIds" jsonBody);;
  if has then
    let user := userId entry in
    w <- get;;
    perms <- lift (permissions_get w user);;
    match perms with
    | None => raise (NotAuthenticatedException (str_of_pyval user))
    | Some userDatasets =>
        requested <- lift (Py.getitem jsonBody "datasetIds");;
        datasets <- lift (Py.iter requested);;
        validIds <- new_list
          (List.filter (fun dataset => Py.in_strings dataset userDatasets)
             datasets);;
        empty <- new_list [];;
        if py_is validIds empty
        then raise (NotAuthenticatedException None)
        else ret None
    end
  else ret None.

(** Lines 374-412, the [before_request] hook. *)
Definition checkAuthentication (app : App) (request : Request)
  : M (option Response) :=
  match oidcClient app with
  | None => ret None
  | Some client =>
      if bool_decide (endpoint request = Some "oidcCallback") then ret None
      else
        w <- get;;
        let key := Py.or_ (s_key (session w)) (args_get request "key") in
        match tokenMap_get w key with
        | None =>
            if args_contains request "key"
            then raise (NotAuthenticatedException None)
            else
              response <- startLogin app client;;
              ret (Some response)
        | Some entry => checkDatasets entry request
        end
  end.

Definition handleFlaskGetRequest (app : App) (version id_ : string)
    (flaskRequest : Request) (operation : string) : M Response :=
  assertCorrectVersion app version;;;
  if String.eqb (method flaskRequest) "GET"
  then handleHttpGet app id_ operation
  else raise MethodNotAllowedException.

Definition handleFlaskPostRequest (app : App) (version : string)
    (flaskRequest : Request) (operation : string) : M Response :=
  assertCorrectVersion app version;;;
  if String.eqb (method flaskRequest) "POST"
  then handleHttpPost app flaskRequest operation
  else if String.eqb (method flaskRequest) "OPTIONS"
  then ret handleHttpOptions
  else raise MethodNotAllowedException.

Definition index : result Response := Ok (RenderedTemplate "index.html").

Definition indexRedirect (app : App) (version : string) : result Response :=
  match Version.isCurrentVersion (protocol_version app) version with
  | Raise TypeError => Raise PathNotFoundException
  | Raise e => Raise e
  | Ok isCurrentVersion =>
      if isCurrentVersion then index else Raise PathNotFoundException
  end.

Definition searchVariantSets (app : App) (request : Request) (version : string)
  : M Response :=
  handleFlaskPostRequest app version request "searchVariantSets".

Definition searchVariants (app : App) (request : Request) (version : string)
  : M Response :=
  handleFlaskPostRequest app version request "searchVariants".

Definition getVariantSet (app : App) (request : Request) (version id : string)
  : M Response :=
  handleFlaskGetRequest app version id request "getVariantSet".

Definition oidcCallback (app : App) (request : Request) : M Response :=
  match oidcClient app with
  | None => raise NotImplementedException
  | Some client =>
      let response := dict_of_items (args request) in
      aresp <- lift (parse_response client response);;
      w <- get;;
      let sessState := s_state (session w) in
      respState <- lift (msg_getitem aresp "state");;
      if negb (isAuthorizationResponse aresp)
         || negb (Py.eq_optstr respState sessState)
      then raise (NotAuthenticatedException None)
      else
        authCode <- lift (msg_getitem aresp "code");;
        uri <- lift (first_redirect_uri client);;
        let args :=
          {| t_code := authCode; t_redirect_uri := uri;
             t_client_id := client_id client;
             t_client_secret := client_secret client |} in
        atr <- lift (do_access_token_request client respState args);;
        if negb (isAccessTokenResponse atr)
        then raise (NotAuthenticatedException None)
        else
          let atrDict := PDict (to_dict atr) in
          idToken <- lift (Py.getitem atrDict "id_token");;
          tokenNonce <- lift (Py.getitem idToken "nonce");;
          if negb (Py.eq_optstr tokenNonce (s_nonce (session w)))
          then raise (NotAuthenticatedException None)
          else
            st <- lift (msg_getitem aresp "state");;
            info <- lift (do_user_info_request client st);;
            key <- draw app SECRET_KEY_LENGTH;;
            set_session (fun s =>
              {| s_state := s_state s; s_nonce := s_nonce s;
                 s_key := Some key; s_userId := s_userId s |});;;
            user <- lift (msg_getitem info "email");;
            set_session (fun s =>
              {| s_state := s_state s; s_nonce := s_nonce s;
                 s_key := s_key s; s_userId := Some user |});;;
            set_tokenMap (fun m =>
              <[key := {| code := authCode; state := respState;
                          accessTokenResponse := atrDict; userId := user;
                          userInfo := info |}]> m);;;
            let indexUrl := url_for_index app in
            let indexUrl :=
              if negb (PyStr.contains ":" (netloc indexUrl))
              then {| scheme := scheme indexUrl;
                      netloc := hostname app +:+ ":" +:+ pretty (myPort app);
                      urlpath := urlpath indexUrl |}
              else indexUrl in
            ret (Redirect (urlunparse indexUrl))
  end.

(** Flask runs the [before_request] hook first and calls the view
    function only when the hook returned [None]. *)
Definition full_dispatch_request (app : App) (request : Request)
    (view : M Response) : M Response :=
  rv <- checkAuthentication app request;;
  match rv with
  | Some response => ret response
  | None => view
  end.

(** ** What a step leaves unchanged *)

(** The part of the state shared by all requests that a step leaves as
    it was. *)
Definition frame (w w' : World) : Prop :=
  tokenMap w' = tokenMap w /\ permissions w' = permissions w.

Definition keeps {A} (m : M A) : Prop := forall w : World, frame w (snd (m w)).

(** ** A sample deployment *)

Module Sample.

Definition quote (s : string) : string :=
  String "034"%char s +:+ String "034"%char EmptyString.

Fixpoint pad (n : nat) (s : string) : string :=
  match n with
  | O => EmptyString
  | S n' =>
      match s with
      | EmptyString => String "x"%char (pad n' EmptyString)
      | String c s' => String c (pad n' s')
      end
  end.

Definition source (size i : nat) : string := pad size (pretty i).

Definition fields (info : gmap string string) : list (string * pyval) :=
  map (fun kv => (fst kv, PStr (snd kv))) (map_to_list info).

(** A provider client that answers as a provider does: an error
    response when the parameters carry [error], a failure when there are
    none, an authorization response otherwise. *)
Definition client : OidcClient :=
  {| client_id := "ga4gh";
     client_secret := "secret";
     redirect_uris := ["https://server:8000/oauth2callback"];
     parse_response := fun info =>
       match info !! "error" with
       | Some _ =>
           Ok {| mclass := OtherMessage "AuthorizationErrorResponse";
                 to_dict := fields info |}
       | None =>
           if bool_decide (info = ∅)
           then Raise (ExternalError "Missing or faulty response")
           else Ok {| mclass := AuthorizationResponse;
                      to_dict := fields info |}
       end;
     do_authorization_request := fun args st =>
       Ok ("https://provider/authorize?state=" +:+ st);
     do_access_token_request := fun st args =>
       Ok {| mclass := AccessTokenResponse;
             to_dict := [("access_token", PStr "at");
                         ("id_token", PDict [("nonce", PStr "nonce0")])] |};
     do_user_info_request := fun st =>
       Ok {| mclass := OtherMessage "OpenIDSchema";
             to_dict := [("email", PStr "alice@example.org")] |} |}.

Definition app : App :=
  {| oidcClient := Some client;
     protocol_version := "0.5.1";
     rndstr := source;
     backend := fun operation data => Ok "{}";
     myPort := 8000%N;
     hostname := "server";
     url_for_index :=
       {| scheme := "http"; netloc := "localhost"; urlpath := "/" |} |}.

Definition alice : TokenEntry :=
  {| code := PStr "code0";
     state := PStr "state0";
     accessTokenResponse := PDict [("access_token", PStr "at")];
     userId := PStr "alice@example.org";
     userInfo := {| mclass := OtherMessage "OpenIDSchema";
                    to_dict := [("email", PStr "alice@example.org")] |} |}.

Definition no_session : Session :=
  {| s_state := None; s_nonce := None; s_key := None; s_userId := None |}.

(** Alice is logged in and may read ds1 only. *)
Definition world : World :=
  {| tokenMap := {[ "tok" := alice ]};
     permissions := {[ "alice@example.org" := ["ds1"] ]};
     session := {| s_state := Some "state0"; s_nonce := Some "nonce0";
                   s_key := Some "tok";
                   s_userId := Some (PStr "alice@example.org") |};
     draws := 0;
     objects := 0;
     backendCalls := [] |}.

(** A browser in the middle of a login. *)
Definition login_world : World :=
  {| tokenMap := {[ "tok" := alice ]};
     permissions := {[ "alice@example.org" := ["ds1"] ]};
     session := {| s_state := Some "state0"; s_nonce := Some "nonce0";
                   s_key := None; s_userId := None |};
     draws := 2;
     objects := 0;
     backendCalls := [] |}.

Definition search (datasets : list string) : Request :=
  {| method := "POST";
     endpoint := Some "searchVariantSets";
     args := [];
     mimetype := MIMETYPE;
     get_data :=
       "{" +:+ quote "datasetIds" +:+ ": ["
       +:+ String.concat ", " (map quote datasets) +:+ "]}";
     get_json := Ok (PDict [("datasetIds", PList (map PStr datasets))]) |}.

Definition callback (params : list (string * string)) : Request :=
  {| method := "GET";
     endpoint := Some "oidcCallback";
     args := params;
     mimetype := "";
     get_data := "";
     get_json := Ok PNone |}.

End Sample.


(** The spec's reading of "only the permitted subset is passed
    downstream": no call of the backend carries a requested dataset that the
    caller is not permitted. *)
Definition only_permitted_downstream (userDatasets : list string)
    (datasets : list pyval) (calls : list (string * string)) : Prop :=
  forall ds : string,
    In (PStr ds) datasets -> ~ In ds userDatasets ->
    forall operation data : string,
      In (operation, data) calls -> PyStr.contains ds data = false.

Definition with_args (request : Request) (params : list (string * string))
  : Request :=
  {| method := method request; endpoint := endpoint request; args := params;
     mimetype := mimetype request; get_data := get_data request;
     get_json := get_json request |}.

(** The token map holds no entry under the empty string: its keys are
    drawn by [rndstr(SECRET_KEY_LENGTH)]. *)
Definition minted (w : World) : Prop := tokenMap w !! "" = None.

Definition sized (app : App) : Prop :=
  forall size i : nat, String.length (rndstr app size i) = size.

(** ** Further parts of the frontend *)

(** [Version.__cmp__] and [Version.__ne__] (lines 88-98): [cmp] of the two
    tuples goes through the components from the left, and strings compare
    by their characters. *)
Module VersionOrder.

Definition cmp (a b : Version.t) : comparison :=
  match String.compare (Version.major a) (Version.major b) with
  | Eq =>
      match String.compare (Version.minor a) (Version.minor b) with
      | Eq => String.compare (Version.revision a) (Version.revision b)
      | c => c
      end
  | c => c
  end.

Definition ne (a b : Version.t) : bool := negb (Version.eqb a b).

End VersionOrder.

(** Every key of the token map has the length that [oidcCallback] asks
    the random source for. *)
Definition keys_sized (w : World) : Prop :=
  forall (k : string) (entry : TokenEntry),
    tokenMap w !! k = Some entry -> String.length k = SECRET_KEY_LENGTH.

(** Checks on the rule table: when two rules can match one path. *)
Module RouteTable.

Definition accepts (c : Routing.Converter) (text : string) : bool :=
  match Routing.to_python c text with Ok _ => true | Raise _ => false end.

(** Two parts that one segment can satisfy. *)
Definition compatible (p q : Routing.Part) : bool :=
  match p, q with
  | Routing.Static a, Routing.Static b => String.eqb a b
  | Routing.Static a, Routing.Dynamic c _ => PyStr.truthy a && accepts c a
  | Routing.Dynamic c _, Routing.Static a => PyStr.truthy a && accepts c a
  | Routing.Dynamic _ _, Routing.Dynamic _ _ => true
  end.

Definition is_path (p : Routing.Part) : bool :=
  match p with
  | Routing.Dynamic Routing.PathConverter _ => true
  | _ => false
  end.

(** Two lists of parts that one path can satisfy; a path placeholder is
    taken to fit whatever is left. *)
Fixpoint overlap (ps qs : list Routing.Part) : bool :=
  match ps, qs with
  | [], [] => true
  | p :: ps', q :: qs' =>
      is_path p || is_path q || (compatible p q && overlap ps' qs')
  | _, _ => false
  end.

Definition parts_of (r : Routing.Rule) : list Routing.Part :=
  match Routing.parse_rule (Routing.rule r) with
  | Some ps => ps
  | None => []
  end.

Definition parses (r : Routing.Rule) : bool :=
  match Routing.parse_rule (Routing.rule r) with
  | Some _ => true
  | None => false
  end.

Definition callback_rule : string := "/oauth2callback".
Definition static_rule : string := "/static/<path:filename>".

(** A path whose first segment is [static]: the paths that the rule for
    static files can match. *)
Definition under_static (path : string) : bool :=
  match Routing.segments path with
  | seg :: _ => String.eqb seg "static"
  | [] => false
  end.

(** Two rules of which no path and method can pick the wrong one: they
    cannot match the same path, or do not share the method, or are the same
    rule; the callback rule, which the version rule overlaps, and the rule
    for static files, which the versioned rules overlap, are set apart. *)
Definition unambiguous (m : string) (r1 r2 : Routing.Rule) : bool :=
  negb (overlap (parts_of r1) (parts_of r2))
  || negb (Routing.has_method m (Routing.methods r1)
           && Routing.has_method m (Routing.methods r2))
  || (String.eqb (Routing.rule r1) (Routing.rule r2)
      && String.eqb (Routing.endpoint r1) (Routing.endpoint r2))
  || String.eqb (Routing.rule r1) callback_rule
  || String.eqb (Routing.rule r2) callback_rule
  || String.eqb (Routing.rule r1) static_rule
  || String.eqb (Routing.rule r2) static_rule.

(** No rule that can match a path of [r0] allows the method, the rule for
    static files set apart. *)
Definition refuses (m : string) (r0 r : Routing.Rule) : bool :=
  negb (overlap (parts_of r) (parts_of r0))
  || (negb (Routing.has_method m (Routing.methods r))
      && match Routing.methods r with [] => false | _ => true end)
  || String.eqb (Routing.rule r) static_rule.

Definition is_static_empty (p : Routing.Part) : bool :=
  match p with
  | Routing.Static text => negb (PyStr.truthy text)
  | Routing.Dynamic _ _ => false
  end.

(** The rules a get-by-id route with the exclusion converter is declared
    for, and those declared with a plain identifier beside a search route. *)
Definition excluding_routes : list (string * string) :=
  [("variantsets", "getVariantSet"); ("callsets", "getCallset");
   ("alleles", "getAllele"); ("variants", "getVariant");
   ("datasets", "getDataset"); ("readgroupsets", "getReadGroupSet")].

Definition capturing_routes : list (string * string * string) :=
  [("references", "getReference", "searchReferences");
   ("referencesets", "getReferenceSet", "searchReferenceSets")].

End RouteTable.

(** * Properties *)

(** ** Evaluation on small inputs *)

Example parse_v051 :
  Version.parseString "v0.5.1" = Ok (Version.Version "0" "5" "1").
Proof. reflexivity. Qed.

Example parse_two : Version.parseString "0.5" = Raise TypeError.
Proof. reflexivity. Qed.

Example parse_empty : Version.parseString "" = Raise TypeError.
Proof. reflexivity. Qed.

Example resolve_abc123 :
  Routing.resolve Routing.url_map "GET" "/v1/variantsets/abc123"
  = Routing.Matched "getVariantSet" [("version", "v1"); ("id", "abc123")].
Proof. vm_compute. reflexivity. Qed.

Example resolve_search_get :
  Routing.resolve Routing.url_map "GET" "/v1/variantsets/search"
  = Routing.MethodNotAllowed ["POST"; "OPTIONS"].
Proof. vm_compute. reflexivity. Qed.

Example resolve_search_post :
  Routing.resolve Routing.url_map "POST" "/v1/variantsets/search"
  = Routing.Matched "searchVariantSets" [("version", "v1")].
Proof. vm_compute. reflexivity. Qed.

Example resolve_static_file :
  Routing.resolve Routing.url_map "GET" "/static/a/b/c/d/e/f"
  = Routing.Matched "static" [("filename", "a/b/c/d/e/f")].
Proof. vm_compute. reflexivity. Qed.

Example resolve_static_before_search :
  Routing.resolve Routing.url_map "GET" "/static/variantsets/search"
  = Routing.Matched "static" [("filename", "variantsets/search")].
Proof. vm_compute. reflexivity. Qed.

Example resolve_static_alone :
  Routing.resolve Routing.url_map "GET" "/static"
  = Routing.Matched "indexRedirect" [("version", "static")].
Proof. vm_compute. reflexivity. Qed.

Example parse_no_rule :
  Routing.parse_rule "/<version>/variantsets/<no(search):id>"
  = Some [Routing.Dynamic Routing.UnicodeConverter "version";
          Routing.Static "variantsets";
          Routing.Dynamic (Routing.NoConverter ["search"]) "id"].
Proof. vm_compute. reflexivity. Qed.

Example sample_gate_ds2 :
  fst (checkAuthentication Sample.app (Sample.search ["ds2"]) Sample.world)
  = Ok None.
Proof. vm_compute. reflexivity. Qed.

Example sample_callback_ok :
  fst (oidcCallback Sample.app
         (Sample.callback [("code", "c"); ("state", "state0")])
         Sample.login_world)
  = Ok (Redirect "http://server:8000/").
Proof. vm_compute. reflexivity. Qed.

Example sample_callback_denied :
  fst (oidcCallback Sample.app
         (Sample.callback [("error", "access_denied")]) Sample.login_world)
  = Raise (KeyError "state").
Proof. vm_compute. reflexivity. Qed.

Example sample_data :
  PyStr.contains "ds2" (get_data (Sample.search ["ds1"; "ds2"])) = true.
Proof. vm_compute. reflexivity. Qed.


(** ** The version gate *)

Section VersionFacts.
Variable pv : string.

Lemma parseString_three (s a b c : string) :
  Version.components s = [a; b; c] ->
  Version.parseString s = Ok (Version.Version a b c).
Proof. unfold Version.parseString. intros ->. reflexivity. Qed.

Lemma parseString_not_three (s : string) :
  length (Version.components s) <> 3 ->
  Version.parseString s = Raise TypeError.
Proof.
  unfold Version.parseString.
  destruct (Version.components s) as [|a [|b [|c [|d l]]]]; simpl;
    intros H; try reflexivity.
  exfalso. apply H. reflexivity.
Qed.

Lemma parseString_Ok_inv (s : string) (v : Version.t) :
  Version.parseString s = Ok v ->
  Version.components s
  = [Version.major v; Version.minor v; Version.revision v].
Proof.
  unfold Version.parseString.
  destruct (Version.components s) as [|a [|b [|c [|d l]]]];
    intros H; try discriminate.
  injection H as <-. reflexivity.
Qed.

Lemma parseString_error (s : string) (e : exn) :
  Version.parseString s = Raise e -> e = TypeError.
Proof.
  unfold Version.parseString.
  destruct (Version.components s) as [|a [|b [|c [|d l]]]];
    intros H; try discriminate; injection H as <-; reflexivity.
Qed.

Lemma isCurrentVersion_sentinel :
  Version.isCurrentVersion pv Version.currentString = Ok true.
Proof. reflexivity. Qed.

Lemma isCurrentVersion_parsed (s : string) :
  s <> Version.currentString ->
  Version.isCurrentVersion pv s
  = rbind (Version.parseString s) (fun v =>
      rbind (Version.parseString pv) (fun p => Ok (Version.eqb v p))).
Proof.
  intros H. unfold Version.isCurrentVersion.
  apply String.eqb_neq in H. rewrite H. reflexivity.
Qed.

(** The only exception of [isCurrentVersion] is the [TypeError] of the
    constructor call. *)
Lemma isCurrentVersion_error (s : string) (e : exn) :
  Version.isCurrentVersion pv s = Raise e -> e = TypeError.
Proof.
  unfold Version.isCurrentVersion.
  destruct (String.eqb s Version.currentString); [discriminate|].
  destruct (Version.parseString s) as [v|e1] eqn:E1; simpl.
  - destruct (Version.parseString pv) as [p|e2] eqn:E2; simpl.
    + discriminate.
    + intros H. injection H as <-. eapply parseString_error; eassumption.
  - intros H. injection H as <-. eapply parseString_error; eassumption.
Qed.

Lemma eqb_refl (v : Version.t) : Version.eqb v v = true.
Proof.
  unfold Version.eqb. rewrite !String.eqb_refl. reflexivity.
Qed.

Lemma eqb_false (v p : Version.t) :
  Version.major v <> Version.major p
  \/ Version.minor v <> Version.minor p
  \/ Version.revision v <> Version.revision p ->
  Version.eqb v p = false.
Proof.
  unfold Version.eqb.
  intros [H|[H|H]]; apply String.eqb_neq in H; rewrite H;
    rewrite ?andb_false_r; reflexivity.
Qed.

Lemma current_is_not_a_version :
  Version.parseString Version.currentString = Raise TypeError.
Proof. reflexivity. Qed.

End VersionFacts.

(** C3, as the code has it: a version string whose pieces, after the
    characters v and V are stripped from both ends and the rest is split on
    the dot, are not exactly three, fails to parse with [TypeError], and
    [isCurrentVersion] (for any such string but the sentinel) fails with
    that error instead of returning a value.  The pieces are not checked to
    be numbers: any three pieces parse, to the version made of those three
    strings. *)
Theorem parseString_checks_arity_only (pv s : string) :
  (length (Version.components s) <> 3 ->
   Version.parseString s = Raise TypeError
   /\ (s <> Version.currentString ->
       Version.isCurrentVersion pv s = Raise TypeError))
  /\ (forall a b c : string,
        Version.components s = [a; b; c] ->
        Version.parseString s = Ok (Version.Version a b c)).
Proof.
  split.
  - intros Hlen. pose proof (parseString_not_three s Hlen) as Hp.
    split; [exact Hp|].
    intros Hs. rewrite isCurrentVersion_parsed by exact Hs.
    rewrite Hp. reflexivity.
  - intros a b c. apply parseString_three.
Qed.

Lemma parseString_checks_arity_only_witness :
  Version.parseString "0.5" = Raise TypeError
  /\ Version.isCurrentVersion "0.5.1" "0.5" = Raise TypeError
  /\ Version.parseString "x.y.z" = Ok (Version.Version "x" "y" "z").
Proof.
  destruct (parseString_checks_arity_only "0.5.1" "0.5") as [H _].
  destruct H as [H1 H2]; [vm_compute; lia|].
  split; [exact H1|]. split; [apply H2; discriminate|].
  destruct (parseString_checks_arity_only "0.5.1" "x.y.z") as [_ H].
  apply H. reflexivity.
Defined.

(** C3, as the spec states it, fails: a string with three non-numeric
    components is malformed in the spec's sense, and parses. *)
Lemma parseString_accepts_non_numeric :
  Version.malformed "a.b.c" = true
  /\ Version.parseString "a.b.c" = Ok (Version.Version "a" "b" "c")
  /\ ~ (exists e : exn, Version.parseString "a.b.c" = Raise e).
Proof.
  split; [reflexivity|]. split; [reflexivity|].
  intros [e H]. discriminate H.
Qed.

(** C5: [isCurrentVersion] is true for a version string that parses to the
    version the configured protocol version parses to, false for one that
    parses to a version differing in a component, and true for the sentinel
    "current", which is compared before anything is parsed (parsing it would
    fail) and so whatever the configured version is. *)
Theorem isCurrentVersion_compares_components (pv : string) :
  (forall (s : string) (v : Version.t),
      Version.parseString s = Ok v ->
      Version.parseString pv = Ok v ->
      Version.isCurrentVersion pv s = Ok true)
  /\ (forall (s : string) (v p : Version.t),
        Version.parseString s = Ok v ->
        Version.parseString pv = Ok p ->
        Version.major v <> Version.major p
        \/ Version.minor v <> Version.minor p
        \/ Version.revision v <> Version.revision p ->
        Version.isCurrentVersion pv s = Ok false)
  /\ Version.isCurrentVersion pv "current" = Ok true
  /\ Version.parseString "current" = Raise TypeError.
Proof.
  assert (Hne : forall s v, Version.parseString s = Ok v ->
                            s <> Version.currentString).
  { intros s v H ->. rewrite current_is_not_a_version in H. discriminate. }
  repeat split.
  - intros s v Hs Hp.
    rewrite isCurrentVersion_parsed by (eapply Hne; eassumption).
    rewrite Hs, Hp. simpl. rewrite eqb_refl. reflexivity.
  - intros s v p Hs Hp Hd.
    rewrite isCurrentVersion_parsed by (eapply Hne; eassumption).
    rewrite Hs, Hp. simpl. rewrite eqb_false by exact Hd. reflexivity.
Qed.

Lemma isCurrentVersion_compares_components_witness :
  Version.isCurrentVersion "0.5.1" "v0.5.1" = Ok true
  /\ Version.isCurrentVersion "0.5.1" "0.6.1" = Ok false
  /\ Version.isCurrentVersion "0.5.1" "current" = Ok true.
Proof.
  destruct (isCurrentVersion_compares_components "0.5.1") as (H1 & H2 & H3 & _).
  split; [|split].
  - apply (H1 "v0.5.1" (Version.Version "0" "5" "1")); reflexivity.
  - apply (H2 "0.6.1" (Version.Version "0" "6" "1")
              (Version.Version "0" "5" "1")); try reflexivity.
    right. left. simpl. discriminate.
  - exact H3.
Defined.

(** ** The index page under a version *)

Section IndexRedirect.
Variable app : App.

Lemma indexRedirect_current (version : string) :
  Version.isCurrentVersion (protocol_version app) version = Ok true ->
  indexRedirect app version = Ok (RenderedTemplate "index.html").
Proof. unfold indexRedirect. intros ->. reflexivity. Qed.

Lemma indexRedirect_other (version : string) :
  Version.isCurrentVersion (protocol_version app) version <> Ok true ->
  indexRedirect app version = Raise PathNotFoundException.
Proof.
  unfold indexRedirect. intros H.
  destruct (Version.isCurrentVersion (protocol_version app) version)
    as [[|]|e] eqn:E.
  - exfalso. apply H. reflexivity.
  - reflexivity.
  - apply isCurrentVersion_error in E. subst e. reflexivity.
Qed.
End IndexRedirect.

(** C8, as the code has it: the handler of [/<version>] answers with the
    index page itself, the value [index()] returns, and issues no HTTP
    redirect, if and only if the version string matches the current protocol
    version; for a version string that does not match, or that is malformed,
    it fails with PathNotFound. *)
Theorem indexRedirect_renders_index (app : App) (version : string) :
  (indexRedirect app version = Ok (RenderedTemplate "index.html")
   <-> Version.isCurrentVersion (protocol_version app) version = Ok true)
  /\ (Version.isCurrentVersion (protocol_version app) version <> Ok true ->
      indexRedirect app version = Raise PathNotFoundException)
  /\ (forall location : string,
        indexRedirect app version <> Ok (Redirect location)).
Proof.
  assert (Hdec : Version.isCurrentVersion (protocol_version app) version = Ok true
                 \/ Version.isCurrentVersion (protocol_version app) version
                    <> Ok true).
  { destruct (Version.isCurrentVersion (protocol_version app) version)
      as [[|]|e]; [left; reflexivity | right; discriminate | right; discriminate]. }
  split; [split|split].
  - intros H. destruct Hdec as [Hc|Hc]; [exact Hc|].
    rewrite (indexRedirect_other app version Hc) in H. discriminate.
  - apply indexRedirect_current.
  - apply indexRedirect_other.
  - intros location. destruct Hdec as [Hc|Hc].
    + rewrite (indexRedirect_current app version Hc). discriminate.
    + rewrite (indexRedirect_other app version Hc). discriminate.
Qed.

(** C8, as the spec states it, fails: for the current version the handler
    answers with the page that [index()] renders, which is not a redirect. *)
Lemma indexRedirect_is_no_redirect :
  Version.isCurrentVersion (protocol_version Sample.app) "v0.5.1" = Ok true
  /\ indexRedirect Sample.app "v0.5.1" = Ok (RenderedTemplate "index.html")
  /\ ~ (exists location : string,
          indexRedirect Sample.app "v0.5.1" = Ok (Redirect location)).
Proof.
  split; [reflexivity|]. split; [reflexivity|].
  intros [location H]. discriminate H.
Qed.

(** ** Route resolution *)

Section Resolution.
Import Routing.

Lemma to_python_no (items : list string) (value v : string) :
  to_python (NoConverter items) value = Ok v ->
  v = value /\ ~ In value items.
Proof.
  unfold to_python, in_items.
  destruct (existsb (String.eqb value) items) eqn:E; [discriminate|].
  intros H. injection H as <-. split; [reflexivity|].
  intros Hin.
  assert (existsb (String.eqb value) items = true) as Ht.
  { apply existsb_exists. exists value. split; [exact Hin|].
    apply String.eqb_refl. }
  congruence.
Qed.

(** A placeholder with the exclusion converter never takes one of its
    excluded literals. *)
Lemma match_parts_excludes (parts : list Part) :
  forall (segs : list string) (rv : list (string * string)) (i : nat)
         (items : list string) (name seg : string),
    match_parts parts segs = Some rv ->
    nth_error parts i = Some (Dynamic (NoConverter items) name) ->
    nth_error segs i = Some seg ->
    ~ In seg items.
Proof.
  induction parts as [|p parts IH]; intros segs rv i items name seg Hm Hp Hs.
  - destruct i; discriminate Hp.
  - destruct segs as [|s segs];
      [destruct p as [text|[| |its] nm]; discriminate Hm|].
    destruct i as [|i]; simpl in Hp, Hs.
    + injection Hp as Hp. injection Hs as Hs. subst p s.
      cbn [match_parts] in Hm.
      destruct (PyStr.truthy seg); [|discriminate].
      destruct (to_python (NoConverter items) seg) as [v|e] eqn:E;
        [|discriminate].
      apply to_python_no in E. tauto.
    + destruct p as [text|[| |its] nm]; cbn [match_parts] in Hm.
      * destruct (String.eqb text s); [|discriminate]. eauto.
      * destruct (PyStr.truthy s); [|discriminate].
        destruct (to_python UnicodeConverter s); [|discriminate].
        destruct (match_parts parts segs) as [rv'|] eqn:E; [|discriminate].
        eauto.
      * destruct parts as [|p' parts']; [|discriminate Hm].
        destruct i; discriminate Hp.
      * destruct (PyStr.truthy s); [|discriminate].
        destruct (to_python (NoConverter its) s); [|discriminate].
        destruct (match_parts parts segs) as [rv'|] eqn:E; [|discriminate].
        eauto.
Qed.

Variables (meth path : string).

(** When every rule that matches the path allows the method and gives
    the same endpoint and arguments, the order of the rules is immaterial. *)
Lemma match_rules_determined (name : string) (rv0 : list (string * string))
    (rules : list Rule) :
  forall have : list string,
    (forall r, In r rules ->
               rule_match r path = None
               \/ (rule_match r path = Some rv0
                   /\ has_method meth (methods r) = true
                   /\ endpoint r = name)) ->
    (exists r, In r rules /\ rule_match r path <> None) ->
    match_rules rules meth path have = Matched name rv0.
Proof.
  induction rules as [|r rules IH]; intros have Hall [r0 [Hin Hr0]].
  - destruct Hin.
  - simpl. destruct (Hall r (or_introl eq_refl)) as [Hn|(Hs & Hm & He)].
    + rewrite Hn. apply IH.
      * intros r' Hr'. apply Hall. right. exact Hr'.
      * exists r0. split; [|exact Hr0].
        destruct Hin as [<-|Hin]; [contradiction|exact Hin].
    + rewrite Hs, Hm, He. reflexivity.
Qed.

(** When no rule that matches the path allows the method, and one
    matches, the answer is MethodNotAllowed. *)
Lemma match_rules_refused (rules : list Rule) :
  forall have : list string,
    (forall r, In r rules ->
               rule_match r path = None
               \/ (has_method meth (methods r) = false /\ methods r <> [])) ->
    (have <> [] \/ exists r, In r rules /\ rule_match r path <> None) ->
    exists valid, match_rules rules meth path have = MethodNotAllowed valid.
Proof.
  induction rules as [|r rules IH]; intros have Hall Hex.
  - simpl. destruct have as [|m have].
    + destruct Hex as [H|[r0 [[] _]]]. contradiction.
    + eexists. reflexivity.
  - simpl. destruct (Hall r (or_introl eq_refl)) as [Hn|[Hm Hne]].
    + rewrite Hn. apply IH.
      * intros r' Hr'. apply Hall. right. exact Hr'.
      * destruct Hex as [H|[r0 [Hin Hr0]]]; [left; exact H|].
        right. exists r0. split; [|exact Hr0].
        destruct Hin as [<-|Hin]; [contradiction|exact Hin].
    + destruct (rule_match r path) as [rv|] eqn:E.
      * rewrite Hm. apply IH.
        -- intros r' Hr'. apply Hall. right. exact Hr'.
        -- left. destruct have; [simpl|discriminate].
           exact Hne.
      * apply IH.
        -- intros r' Hr'. apply Hall. right. exact Hr'.
        -- destruct Hex as [H|[r0 [Hin Hr0]]]; [left; exact H|].
           right. exists r0. split; [|exact Hr0].
           destruct Hin as [<-|Hin]; [contradiction|exact Hin].
Qed.

End Resolution.

(** C6: a placeholder with the exclusion converter never takes one of its
    excluded literals as its value; in every order of the rule table, GET
    /v1/variantsets/search does not resolve to getVariantSet (only the POST
    rule matches the path, so the method is refused), and GET
    /v1/variantsets/abc123 resolves to getVariantSet with id = abc123. *)
Theorem exclusion_converter_routes (rules : list Routing.Rule) :
  Permutation rules Routing.url_map ->
  (forall (parts : list Routing.Part) (segs : list string)
          (rv : list (string * string)) (i : nat) (items : list string)
          (name seg : string),
      Routing.match_parts parts segs = Some rv ->
      nth_error parts i
      = Some (Routing.Dynamic (Routing.NoConverter items) name) ->
      nth_error segs i = Some seg ->
      ~ In seg items)
  /\ (forall args : list (string * string),
        Routing.resolve rules "GET" "/v1/variantsets/search"
        <> Routing.Matched "getVariantSet" args)
  /\ (exists valid : list string,
        Routing.resolve rules "GET" "/v1/variantsets/search"
        = Routing.MethodNotAllowed valid)
  /\ Routing.resolve rules "GET" "/v1/variantsets/abc123"
     = Routing.Matched "getVariantSet" [("version", "v1"); ("id", "abc123")].
Proof.
  intros Hperm.
  assert (Hin : forall r, In r rules -> In r Routing.url_map).
  { intros r. apply Permutation_in. exact Hperm. }
  assert (Hex : forall r, In r Routing.url_map -> In r rules).
  { intros r. apply Permutation_in. apply Permutation_sym. exact Hperm. }
  assert (Hrefused : exists valid : list string,
             Routing.resolve rules "GET" "/v1/variantsets/search"
             = Routing.MethodNotAllowed valid).
  { apply match_rules_refused.
    - intros r Hr. apply Hin in Hr. revert r Hr.
      apply List.Forall_forall.
      apply (bool_decide_unpack _). vm_compute. exact I.
    - right.
      exists (Routing.DisplayedRoute "/<version>/variantsets/search" true
                "searchVariantSets").
      split; [apply Hex; vm_compute; tauto | vm_compute; discriminate]. }
  split; [|split; [|split]].
  - intros parts. apply match_parts_excludes.
  - intros args. destruct Hrefused as [valid ->]. discriminate.
  - exact Hrefused.
  - apply match_rules_determined.
    + intros r Hr. apply Hin in Hr. revert r Hr.
      apply List.Forall_forall.
      apply (bool_decide_unpack _). vm_compute. exact I.
    + exists (Routing.DisplayedRoute "/<version>/variantsets/<no(search):id>"
                false "getVariantSet").
      split; [apply Hex; vm_compute; tauto | vm_compute; discriminate].
Qed.

Lemma exclusion_converter_routes_witness :
  Routing.resolve (rev Routing.url_map) "GET" "/v1/variantsets/abc123"
  = Routing.Matched "getVariantSet" [("version", "v1"); ("id", "abc123")].
Proof.
  apply (exclusion_converter_routes (rev Routing.url_map)).
  apply Permutation_sym. apply Permutation_rev.
Defined.

(** ** The authentication gate *)

Section Gate.
Variables (app : App) (client : OidcClient).
Hypothesis configured : oidcClient app = Some client.

(** The object made by a list display is never an object made before. *)
Lemma fresh_list_is_new (l : list pyval) (w : World) :
  forall validIds w1 empty w2,
    new_list l w = (Ok validIds, w1) ->
    new_list [] w1 = (Ok empty, w2) ->
    py_is validIds empty = false.
Proof.
  unfold new_list, py_is. intros validIds w1 empty w2 H1 H2.
  injection H1 as <- <-. injection H2 as <- <-. simpl.
  apply Nat.eqb_neq. lia.
Qed.

(** Lines 403-412 for a body that is a dict with a [datasetIds] list and
    a user the permission table knows: the request passes, whatever the
    intersection is. *)
Lemma checkDatasets_known_user (entry : TokenEntry) (request : Request)
    (w : World) (d : list (string * pyval)) (datasets : list pyval)
    (userDatasets : list string) :
  get_json request = Ok (PDict d) ->
  Py.assoc "datasetIds" d = Some (PList datasets) ->
  permissions_get w (userId entry) = Ok (Some userDatasets) ->
  checkDatasets entry request w
  = (Ok None,
     {| tokenMap := tokenMap w; permissions := permissions w;
        session := session w; draws := draws w;
        objects := S (S (objects w)); backendCalls := backendCalls w |}).
Proof.
  intros Hj Hd Hp. unfold checkDatasets, bind, lift, get.
  rewrite Hj.
  assert (Ht : Py.truthy (PDict d) = true).
  { destruct d; [discriminate Hd | reflexivity]. }
  rewrite Ht. cbn [Py.contains Py.getitem]. rewrite Hd.
  rewrite Hp. cbn [Py.iter new_list]. 
  unfold py_is. cbn [identity objects].
  replace (Nat.eqb (objects w) (S (objects w))) with false
    by (symmetry; apply Nat.eqb_neq; lia).
  reflexivity.
Qed.

Lemma checkDatasets_no_field (entry : TokenEntry) (request : Request)
    (w : World) (body : pyval) :
  get_json request = Ok body ->
  Py.contains "datasetIds" (if Py.truthy body then body else PDict [])
  = Ok false ->
  checkDatasets entry request w = (Ok None, w).
Proof.
  intros Hj Hc. unfold checkDatasets, bind, lift. rewrite Hj, Hc.
  reflexivity.
Qed.

Lemma checkDatasets_unknown_user (entry : TokenEntry) (request : Request)
    (w : World) (body : pyval) :
  get_json request = Ok body ->
  Py.contains "datasetIds" (if Py.truthy body then body else PDict [])
  = Ok true ->
  permissions_get w (userId entry) = Ok None ->
  checkDatasets entry request w
  = (Raise (NotAuthenticatedException (str_of_pyval (userId entry))), w).
Proof.
  intros Hj Hc Hp. unfold checkDatasets, bind, lift, get.
  rewrite Hj, Hc, Hp. reflexivity.
Qed.

(** The dataset check never answers with a response of its own. *)
Lemma checkDatasets_no_response (entry : TokenEntry) (request : Request)
    (w : World) (response : Response) :
  fst (checkDatasets entry request w) <> Ok (Some response).
Proof.
  unfold checkDatasets, bind, lift, get, raise, ret, new_list.
  destruct (get_json request) as [body|e]; [|discriminate].
  destruct (Py.contains "datasetIds" _) as [[|]|e]; try discriminate.
  destruct (permissions_get w (userId entry)) as [[ds|]|e]; try discriminate.
  destruct (Py.getitem _ "datasetIds") as [requested|e]; [|discriminate].
  destruct (Py.iter requested) as [datasets|e]; [|discriminate].
  cbn. destruct (Nat.eqb (objects w) (S (objects w))); discriminate.
Qed.

Variable request : Request.
Hypothesis gated : endpoint request <> Some "oidcCallback".

Lemma checkAuthentication_gated (w : World) :
  checkAuthentication app request w
  = match tokenMap_get w (Py.or_ (s_key (session w)) (args_get request "key")) with
    | None =>
        if args_contains request "key"
        then (Raise (NotAuthenticatedException None), w)
        else bind (startLogin app client) (fun r => ret (Some r)) w
    | Some entry => checkDatasets entry request w
    end.
Proof.
  unfold checkAuthentication. rewrite configured.
  rewrite bool_decide_eq_false_2 by exact gated.
  unfold bind at 1, get.
  destruct (tokenMap_get w _); [reflexivity|].
  destruct (args_contains request "key"); reflexivity.
Qed.

(** The login redirect, when the provider client builds the request. *)
Lemma startLogin_redirect (w : World) (uri url : string) :
  first_redirect_uri client = Ok uri ->
  do_authorization_request client
    {| a_client_id := client_id client; a_response_type := "code";
       a_scope := ["openid"; "profile"; "email"];
       a_nonce := rndstr app SECRET_KEY_LENGTH (S (draws w));
       a_redirect_uri := uri;
       a_state := rndstr app SECRET_KEY_LENGTH (draws w) |}
    (rndstr app SECRET_KEY_LENGTH (draws w)) = Ok url ->
  startLogin app client w
  = (Ok (Redirect url),
     {| tokenMap := tokenMap w; permissions := permissions w;
        session :=
          {| s_state := Some (rndstr app SECRET_KEY_LENGTH (draws w));
             s_nonce := Some (rndstr app SECRET_KEY_LENGTH (S (draws w)));
             s_key := s_key (session w);
             s_userId := s_userId (session w) |};
        draws := S (S (draws w)); objects := objects w;
        backendCalls := backendCalls w |}).
Proof.
  intros Hu Hr. unfold startLogin, bind, draw, set_session, modify, lift, ret.
  cbn. rewrite Hu, Hr. reflexivity.
Qed.

End Gate.

(** C7: with OIDC configured and no token resolved for the request, a
    request that carries a [key] query parameter fails with NotAuthenticated,
    and nothing of a login is started (the state is untouched); a request
    without one gets what [startLogin] answers, the redirect to the provider
    whenever the provider client builds the authorization request. *)
Theorem unauthenticated_key_or_login (app : App) (client : OidcClient)
    (request : Request) (w : World) :
  oidcClient app = Some client ->
  endpoint request <> Some "oidcCallback" ->
  tokenMap_get w (Py.or_ (s_key (session w)) (args_get request "key")) = None ->
  (args_contains request "key" = true ->
   checkAuthentication app request w
   = (Raise (NotAuthenticatedException None), w))
  /\ (args_contains request "key" = false ->
      checkAuthentication app request w
      = bind (startLogin app client) (fun r => ret (Some r)) w
      /\ forall uri url : string,
          first_redirect_uri client = Ok uri ->
          do_authorization_request client
            {| a_client_id := client_id client; a_response_type := "code";
               a_scope := ["openid"; "profile"; "email"];
               a_nonce := rndstr app SECRET_KEY_LENGTH (S (draws w));
               a_redirect_uri := uri;
               a_state := rndstr app SECRET_KEY_LENGTH (draws w) |}
            (rndstr app SECRET_KEY_LENGTH (draws w)) = Ok url ->
          fst (checkAuthentication app request w) = Ok (Some (Redirect url))).
Proof.
  intros Hc Hg Hk.
  rewrite (checkAuthentication_gated app client Hc request Hg w), Hk.
  split; intros Ha; rewrite Ha.
  - reflexivity.
  - split; [reflexivity|].
    intros uri url Hu Hr. unfold bind.
    rewrite (startLogin_redirect app client w uri url Hu Hr). reflexivity.
Qed.

Lemma unauthenticated_key_or_login_witness :
  checkAuthentication Sample.app
    (with_args (Sample.search ["ds1"]) [("key", "forged")]) Sample.login_world
  = (Raise (NotAuthenticatedException None), Sample.login_world)
  /\ fst (checkAuthentication Sample.app (Sample.search ["ds1"])
            Sample.login_world)
     = Ok (Some (Redirect
                   ("https://provider/authorize?state="
                    +:+ Sample.source SECRET_KEY_LENGTH 2))).
Proof.
  split.
  - apply (unauthenticated_key_or_login Sample.app Sample.client
             (with_args (Sample.search ["ds1"]) [("key", "forged")])
             Sample.login_world);
      [reflexivity | discriminate | vm_compute; reflexivity | reflexivity].
  - eapply (unauthenticated_key_or_login Sample.app Sample.client
              (Sample.search ["ds1"]) Sample.login_world);
      [reflexivity | discriminate | vm_compute; reflexivity | reflexivity
      | reflexivity | reflexivity].
Defined.

(** C9: when the session holds a key that resolves in the token map, the
    gate goes on to the dataset check with that key's record whatever the
    query parameters are: a [key] parameter, valid or not, changes nothing,
    and the answer is never the login redirect. *)
Theorem session_key_takes_precedence (app : App) (client : OidcClient)
    (request : Request) (w : World) (k : string) (entry : TokenEntry) :
  oidcClient app = Some client ->
  endpoint request <> Some "oidcCallback" ->
  minted w ->
  s_key (session w) = Some k ->
  tokenMap w !! k = Some entry ->
  forall params : list (string * string),
    checkAuthentication app (with_args request params) w
    = checkDatasets entry request w
    /\ (forall response : Response,
          fst (checkAuthentication app (with_args request params) w)
          <> Ok (Some response)).
Proof.
  intros Hc Hg Hm Hk Ht params.
  assert (Hne : PyStr.truthy k = true).
  { destruct k; [|reflexivity]. unfold minted in Hm. congruence. }
  assert (Heq : checkAuthentication app (with_args request params) w
                = checkDatasets entry request w).
  { rewrite (checkAuthentication_gated app client Hc
               (with_args request params) Hg w).
    rewrite Hk. unfold Py.or_. rewrite Hne. cbn [tokenMap_get]. rewrite Ht.
    reflexivity. }
  split; [exact Heq|].
  intros response. rewrite Heq. apply checkDatasets_no_response.
Qed.

Lemma session_key_takes_precedence_witness :
  checkAuthentication Sample.app
    (with_args (Sample.search ["ds1"]) [("key", "forged")]) Sample.world
  = checkDatasets Sample.alice (Sample.search ["ds1"]) Sample.world.
Proof.
  apply (session_key_takes_precedence Sample.app Sample.client
           (Sample.search ["ds1"]) Sample.world "tok" Sample.alice);
    [reflexivity | discriminate | vm_compute; reflexivity | reflexivity
    | vm_compute; reflexivity].
Defined.

(** ** What reaches the backend *)

Lemma handleFlaskPostRequest_post (app : App) (request : Request)
    (version operation : string) (w : World) :
  Version.isCurrentVersion (protocol_version app) version = Ok true ->
  method request = "POST" ->
  mimetype request = MIMETYPE ->
  backendCalls (snd (handleFlaskPostRequest app version request operation w))
  = backendCalls w ++ [(operation, get_data request)].
Proof.
  intros Hv Hm Ht.
  unfold handleFlaskPostRequest, assertCorrectVersion, handleHttpPost,
    bind, lift, ret, call_backend.
  rewrite Hv, Hm, Ht. cbn.
  destruct (backend app operation (get_data request)); reflexivity.
Qed.

(** C1 on the code: Alice may read ds1 only and searches ds2 only, so the
    intersection is empty; the gate lets the request through and the
    backend is called with it. *)
Theorem empty_intersection_passes_gate :
  permissions Sample.world !! "alice@example.org" = Some ["ds1"]
  /\ get_json (Sample.search ["ds2"])
     = Ok (PDict [("datasetIds", PList [PStr "ds2"])])
  /\ List.filter (fun dataset => Py.in_strings dataset ["ds1"]) [PStr "ds2"]
     = []
  /\ fst (checkAuthentication Sample.app (Sample.search ["ds2"]) Sample.world)
     = Ok None
  /\ backendCalls
       (snd (full_dispatch_request Sample.app (Sample.search ["ds2"])
               (searchVariantSets Sample.app (Sample.search ["ds2"]) "v0.5.1")
               Sample.world))
     = [("searchVariantSets", get_data (Sample.search ["ds2"]))].
Proof. repeat split; vm_compute; reflexivity. Qed.

(** C2, as the code has it: for a gated request whose body carries a
    [datasetIds] list of identifiers, whose caller the permission table
    knows and is permitted at least one of the requested datasets, the gate
    passes, and the search handler gives the backend the data of the request
    as it came: the permitted subset is computed for the check only and
    nothing is dropped from what is searched. *)
Theorem requested_datasets_reach_backend (app : App) (client : OidcClient)
    (request : Request) (w : World) (version operation : string)
    (entry : TokenEntry) (d : list (string * pyval)) (names : list string)
    (userDatasets : list string) :
  oidcClient app = Some client ->
  endpoint request <> Some "oidcCallback" ->
  tokenMap_get w (Py.or_ (s_key (session w)) (args_get request "key"))
  = Some entry ->
  get_json request = Ok (PDict d) ->
  Py.assoc "datasetIds" d = Some (PList (map PStr names)) ->
  permissions_get w (userId entry) = Ok (Some userDatasets) ->
  List.filter (fun name => existsb (String.eqb name) userDatasets) names
  <> [] ->
  method request = "POST" ->
  mimetype request = MIMETYPE ->
  Version.isCurrentVersion (protocol_version app) version = Ok true ->
  fst (checkAuthentication app request w) = Ok None
  /\ backendCalls
       (snd (full_dispatch_request app request
               (handleFlaskPostRequest app version request operation) w))
     = backendCalls w ++ [(operation, get_data request)].
Proof.
  intros Hc Hg Hk Hj Hd Hp _ Hm Ht Hv.
  assert (Hgate : checkAuthentication app request w
                  = (Ok None,
                     {| tokenMap := tokenMap w; permissions := permissions w;
                        session := session w; draws := draws w;
                        objects := S (S (objects w));
                        backendCalls := backendCalls w |})).
  { rewrite (checkAuthentication_gated app client Hc request Hg w), Hk.
    eapply checkDatasets_known_user; eassumption. }
  split; [rewrite Hgate; reflexivity|].
  unfold full_dispatch_request, bind at 1. rewrite Hgate.
  rewrite handleFlaskPostRequest_post by assumption. reflexivity.
Qed.

Lemma requested_datasets_reach_backend_witness :
  backendCalls
    (snd (full_dispatch_request Sample.app (Sample.search ["ds1"; "ds2"])
            (handleFlaskPostRequest Sample.app "v0.5.1"
               (Sample.search ["ds1"; "ds2"]) "searchVariantSets")
            Sample.world))
  = backendCalls Sample.world
    ++ [("searchVariantSets", get_data (Sample.search ["ds1"; "ds2"]))].
Proof.
  eapply (requested_datasets_reach_backend Sample.app Sample.client
            (Sample.search ["ds1"; "ds2"]) Sample.world "v0.5.1"
            "searchVariantSets" Sample.alice
            [("datasetIds", PList [PStr "ds1"; PStr "ds2"])]
            ["ds1"; "ds2"] ["ds1"]);
    [reflexivity | discriminate | vm_compute; reflexivity | reflexivity
    | reflexivity | vm_compute; reflexivity | vm_compute; discriminate
    | reflexivity | reflexivity | reflexivity].
Defined.

(** C2, as the spec states it, fails: Alice, permitted ds1, searches ds1
    and ds2, and the backend is called with data that names ds2. *)
Lemma unpermitted_dataset_reaches_backend :
  permissions Sample.world !! "alice@example.org" = Some ["ds1"]
  /\ get_json (Sample.search ["ds1"; "ds2"])
     = Ok (PDict [("datasetIds", PList [PStr "ds1"; PStr "ds2"])])
  /\ ~ only_permitted_downstream ["ds1"] [PStr "ds1"; PStr "ds2"]
         (backendCalls
            (snd (full_dispatch_request Sample.app
                    (Sample.search ["ds1"; "ds2"])
                    (searchVariantSets Sample.app
                       (Sample.search ["ds1"; "ds2"]) "v0.5.1")
                    Sample.world))).
Proof.
  split; [vm_compute; reflexivity|]. split; [reflexivity|].
  intros H.
  specialize (H "ds2").
  assert (Hcalls :
    backendCalls
      (snd (full_dispatch_request Sample.app (Sample.search ["ds1"; "ds2"])
              (searchVariantSets Sample.app (Sample.search ["ds1"; "ds2"])
                 "v0.5.1")
              Sample.world))
    = [("searchVariantSets", get_data (Sample.search ["ds1"; "ds2"]))])
    by (vm_compute; reflexivity).
  rewrite Hcalls in H.
  assert (Hfalse : PyStr.contains "ds2" (get_data (Sample.search ["ds1"; "ds2"]))
                   = false).
  { apply (H ltac:(right; left; reflexivity)
             ltac:(intros [E|[]]; discriminate E)
             "searchVariantSets").
    left. reflexivity. }
  vm_compute in Hfalse. discriminate Hfalse.
Qed.

(** ** What a request changes *)

Lemma frame_refl (w : World) : frame w w.
Proof. split; reflexivity. Qed.

Lemma frame_trans (w1 w2 w3 : World) : frame w1 w2 -> frame w2 w3 -> frame w1 w3.
Proof. intros [H1 H2] [H3 H4]. split; congruence. Qed.

Lemma keeps_ret {A} (a : A) : keeps (ret a).
Proof. intros w. apply frame_refl. Qed.

Lemma keeps_raise {A} (e : exn) : keeps (@raise A e).
Proof. intros w. apply frame_refl. Qed.

Lemma keeps_lift {A} (r : result A) : keeps (lift r).
Proof. intros w. apply frame_refl. Qed.

Lemma keeps_get : keeps get.
Proof. intros w. apply frame_refl. Qed.

Lemma keeps_set_session (f : Session -> Session) : keeps (set_session f).
Proof. intros w. split; reflexivity. Qed.

Lemma keeps_draw (app : App) (size : nat) : keeps (draw app size).
Proof. intros w. split; reflexivity. Qed.

Lemma keeps_new_list (l : list pyval) : keeps (new_list l).
Proof. intros w. split; reflexivity. Qed.

Lemma keeps_call_backend (app : App) (operation data : string) :
  keeps (call_backend app operation data).
Proof. intros w. split; reflexivity. Qed.

Lemma keeps_bind {A B} (m : M A) (k : A -> M B) :
  keeps m -> (forall a, keeps (k a)) -> keeps (bind m k).
Proof.
  intros Hm Hk w. unfold bind. specialize (Hm w).
  destruct (m w) as [[a|e] w']; simpl in *.
  - eapply frame_trans; [exact Hm | apply Hk].
  - exact Hm.
Qed.

Create HintDb frame.
#[local] Hint Resolve keeps_ret keeps_raise keeps_lift keeps_get
  keeps_set_session keeps_draw keeps_new_list keeps_call_backend : frame.

Ltac keeps_step :=
  match goal with
  | |- keeps (bind _ _) => apply keeps_bind; [|intros]
  | |- keeps (match ?x with _ => _ end) => destruct x
  | |- keeps (let _ := _ in _) => cbv zeta
  | |- keeps _ => solve [auto with frame]
  end.

Lemma keeps_startLogin (app : App) (client : OidcClient) :
  keeps (startLogin app client).
Proof. unfold startLogin. repeat keeps_step. Qed.

Lemma keeps_checkDatasets (entry : TokenEntry) (request : Request) :
  keeps (checkDatasets entry request).
Proof. unfold checkDatasets. repeat keeps_step. Qed.

Lemma keeps_checkAuthentication (app : App) (request : Request) :
  keeps (checkAuthentication app request).
Proof.
  unfold checkAuthentication. repeat keeps_step;
    first [apply keeps_startLogin | apply keeps_checkDatasets].
Qed.

Lemma keeps_handleFlaskPostRequest (app : App) (version : string)
    (request : Request) (operation : string) :
  keeps (handleFlaskPostRequest app version request operation).
Proof.
  unfold handleFlaskPostRequest, assertCorrectVersion, handleHttpPost.
  repeat keeps_step.
Qed.

Lemma keeps_handleFlaskGetRequest (app : App) (version id_ : string)
    (request : Request) (operation : string) :
  keeps (handleFlaskGetRequest app version id_ request operation).
Proof.
  unfold handleFlaskGetRequest, assertCorrectVersion, handleHttpGet.
  repeat keeps_step.
Qed.

(** The callback writes the token map once, at the end, under the key it
    has just drawn; a callback that fails has not written it. *)
Lemma oidcCallback_tokenMap (app : App) (request : Request) (w : World) :
  permissions (snd (oidcCallback app request w)) = permissions w
  /\ match fst (oidcCallback app request w) with
     | Raise _ => tokenMap (snd (oidcCallback app request w)) = tokenMap w
     | Ok _ =>
         exists entry : TokenEntry,
           tokenMap (snd (oidcCallback app request w))
           = <[rndstr app SECRET_KEY_LENGTH (draws w) := entry]> (tokenMap w)
     end.
Proof.
  unfold oidcCallback, bind, lift, get, raise, ret, draw, set_session,
    set_tokenMap, modify.
  repeat match goal with
         | |- context [match ?x with _ => _ end] =>
             destruct x eqn:?; cbn [fst snd tokenMap permissions draws]
         end;
    try (split; reflexivity).
  split; [reflexivity|]. eexists. reflexivity.
Qed.



(** The keys of the token map stay non-empty, given a random source that
    returns strings of the length asked for. *)
Lemma minted_oidcCallback (app : App) (request : Request) (w : World) :
  sized app -> minted w -> minted (snd (oidcCallback app request w)).
Proof.
  intros Hs Hm. unfold minted in *.
  destruct (oidcCallback_tokenMap app request w) as [_ Ht].
  destruct (fst (oidcCallback app request w)).
  - destruct Ht as [entry ->]. rewrite lookup_insert_ne; [exact Hm|].
    intros Hk. pose proof (Hs SECRET_KEY_LENGTH (draws w)) as Hl.
    rewrite Hk in Hl. discriminate Hl.
  - rewrite Ht. exact Hm.
Qed.

Lemma minted_checkAuthentication (app : App) (request : Request) (w : World) :
  minted w -> minted (snd (checkAuthentication app request w)).
Proof.
  unfold minted. destruct (keeps_checkAuthentication app request w) as [-> _].
  tauto.
Qed.

(** ** The callback *)

Section Callback.
Variables (app : App) (client : OidcClient) (request : Request) (w : World).
Hypothesis configured : oidcClient app = Some client.
Variable aresp : Message.
Hypothesis parsed :
  parse_response client (dict_of_items (args request)) = Ok aresp.

(** With a [state] in what the client parsed, a response of another
    class or a state other than the session's fails with NotAuthenticated. *)
Lemma oidcCallback_state_checked (respState : pyval) :
  Py.assoc "state" (to_dict aresp) = Some respState ->
  isAuthorizationResponse aresp = false
  \/ Py.eq_optstr respState (s_state (session w)) = false ->
  oidcCallback app request w = (Raise (NotAuthenticatedException None), w).
Proof.
  intros Hs Hbad. unfold oidcCallback. rewrite configured.
  unfold bind, lift, get, raise. rewrite parsed.
  unfold msg_getitem, Py.getitem. rewrite Hs.
  destruct Hbad as [-> | ->]; rewrite ?orb_true_r; reflexivity.
Qed.

(** Without one, the read of [aresp['state']] at line 724 raises before
    the class of the response is looked at. *)
Lemma oidcCallback_state_missing :
  Py.assoc "state" (to_dict aresp) = None ->
  oidcCallback app request w = (Raise (KeyError "state"), w).
Proof.
  intros Hs. unfold oidcCallback. rewrite configured.
  unfold bind, lift, get. rewrite parsed.
  unfold msg_getitem, Py.getitem. rewrite Hs. reflexivity.
Qed.

End Callback.

(** What the client raises while parsing is not caught. *)
Lemma oidcCallback_parse_raises (app : App) (client : OidcClient)
    (request : Request) (w : World) (e : exn) :
  oidcClient app = Some client ->
  parse_response client (dict_of_items (args request)) = Raise e ->
  oidcCallback app request w = (Raise e, w).
Proof.
  intros Hc Hp. unfold oidcCallback. rewrite Hc.
  unfold bind, lift. rewrite Hp. reflexivity.
Qed.

(** C4 on the code: the session holds the state of a login under way; a
    callback with [error=access_denied] and no [state] is parsed to an error
    response, not an authorization response, and a callback with a code and
    no [state] returns no state at all; both end in [KeyError], not in
    NotAuthenticated. *)
Theorem callback_without_state_is_KeyError :
  s_state (session Sample.login_world) = Some "state0"
  /\ fst (oidcCallback Sample.app
            (Sample.callback [("error", "access_denied")]) Sample.login_world)
     = Raise (KeyError "state")
  /\ fst (oidcCallback Sample.app (Sample.callback [("code", "c")])
            Sample.login_world)
     = Raise (KeyError "state")
  /\ isNotAuthenticated (KeyError "state") = false.
Proof. repeat split; vm_compute; reflexivity. Qed.

(** * Further properties *)

(** ** Versions *)

Lemma components_marker (s : string) :
  Version.components (String "v" s) = Version.components s.
Proof. reflexivity. Qed.

(** X1: [getVersionForUrl] gives a string that starts with v, changes
    nothing when applied again, and, but for the sentinel, gives a string
    that [isCurrentVersion] judges as it judges the original; the sentinel
    itself does not survive: its URL form is no version. *)
Theorem getVersionForUrl_keeps_verdict (pv s : string) :
  PyStr.startswith "v" (Version.getVersionForUrl s) = true
  /\ Version.getVersionForUrl (Version.getVersionForUrl s)
     = Version.getVersionForUrl s
  /\ (s <> Version.currentString ->
      Version.isCurrentVersion pv (Version.getVersionForUrl s)
      = Version.isCurrentVersion pv s)
  /\ Version.isCurrentVersion pv (Version.getVersionForUrl Version.currentString)
     = Raise TypeError.
Proof.
  assert (H1 : PyStr.startswith "v" (Version.getVersionForUrl s) = true).
  { unfold Version.getVersionForUrl.
    destruct (PyStr.startswith "v" s) eqn:E; [exact E|].
    unfold PyStr.startswith. change ("v" +:+ s) with (String "v" s).
    cbn [String.prefix].
    destruct (ascii_dec "v" "v"); [destruct s; reflexivity | congruence]. }
  split; [exact H1|]. split; [|split].
  - unfold Version.getVersionForUrl at 1. rewrite H1. reflexivity.
  - intros Hs. unfold Version.getVersionForUrl.
    destruct (PyStr.startswith "v" s); [reflexivity|].
    change ("v" +:+ s) with (String "v" s).
    rewrite (isCurrentVersion_parsed pv s Hs).
    rewrite (isCurrentVersion_parsed pv (String "v" s)) by discriminate.
    unfold Version.parseString. rewrite components_marker. reflexivity.
  - reflexivity.
Qed.

Lemma getVersionForUrl_keeps_verdict_witness :
  Version.isCurrentVersion "0.5.1" (Version.getVersionForUrl "0.5.1") = Ok true.
Proof.
  destruct (getVersionForUrl_keeps_verdict "0.5.1" "0.5.1") as (_ & _ & H & _).
  rewrite H by discriminate. reflexivity.
Defined.

(** X2: for a string other than the sentinel, [isCurrentVersion] returns
    a value exactly when both the string and the configured protocol version
    have three pieces; in every other case it raises [TypeError], so a
    misconfigured protocol version makes every version but "current" fail. *)
Theorem isCurrentVersion_returns_iff (pv s : string) :
  s <> Version.currentString ->
  ((exists b : bool, Version.isCurrentVersion pv s = Ok b)
   <-> length (Version.components s) = 3
       /\ length (Version.components pv) = 3)
  /\ ((forall b : bool, Version.isCurrentVersion pv s <> Ok b) ->
      Version.isCurrentVersion pv s = Raise TypeError).
Proof.
  intros Hs. rewrite (isCurrentVersion_parsed pv s Hs). split; [split|].
  - intros [b Hb].
    destruct (Nat.eq_dec (length (Version.components s)) 3) as [Ls|Ls].
    + split; [exact Ls|].
      destruct (Nat.eq_dec (length (Version.components pv)) 3) as [Lp|Lp];
        [exact Lp|].
      rewrite (parseString_not_three pv Lp) in Hb.
      destruct (Version.parseString s); discriminate Hb.
    + rewrite (parseString_not_three s Ls) in Hb. discriminate Hb.
  - intros [Ls Lp]. unfold Version.parseString.
    destruct (Version.components s) as [|a [|b [|c [|x l]]]]; try discriminate.
    destruct (Version.components pv) as [|a' [|b' [|c' [|x' l']]]];
      try discriminate.
    eexists. reflexivity.
  - intros Hno.
    destruct (Version.parseString s) as [v|e] eqn:Es; simpl in *.
    + destruct (Version.parseString pv) as [q|e] eqn:Ep; simpl in *.
      * exfalso. eapply Hno. reflexivity.
      * apply parseString_error in Ep. subst e. reflexivity.
    + apply parseString_error in Es. subst e. reflexivity.
Qed.

Lemma isCurrentVersion_returns_iff_witness :
  (exists b : bool, Version.isCurrentVersion "0.5.1" "V0.6.0v" = Ok b)
  /\ ~ (exists b : bool, Version.isCurrentVersion "0.5" "0.5.1" = Ok b).
Proof.
  split.
  - apply (isCurrentVersion_returns_iff "0.5.1" "V0.6.0v"); [discriminate|].
    split; reflexivity.
  - intros H.
    apply (isCurrentVersion_returns_iff "0.5" "0.5.1") in H; [|discriminate].
    destruct H as [_ H]. discriminate H.
Defined.

(** X3: [__cmp__] says equal exactly when [__eq__] does, which is exactly
    when the three components are the same strings; [__ne__] is the negation
    of [__eq__]; and swapping the two versions reverses [__cmp__]. *)
Theorem cmp_agrees_with_eq (a b : Version.t) :
  (VersionOrder.cmp a b = Eq <-> Version.eqb a b = true)
  /\ (Version.eqb a b = true <-> a = b)
  /\ VersionOrder.ne a b = negb (Version.eqb a b)
  /\ VersionOrder.cmp b a = CompOpp (VersionOrder.cmp a b).
Proof.
  assert (Heq : Version.eqb a b = true <-> a = b).
  { unfold Version.eqb. split.
    - intros H. apply andb_prop in H. destruct H as [H H3].
      apply andb_prop in H. destruct H as [H1 H2].
      apply String.eqb_eq in H1, H2, H3.
      destruct a, b. simpl in *. congruence.
    - intros ->. apply eqb_refl. }
  split; [|split; [exact Heq|split]].
  - rewrite Heq. unfold VersionOrder.cmp. split.
    + intros H.
      destruct (String.compare (Version.major a) (Version.major b)) eqn:E1;
        try discriminate.
      destruct (String.compare (Version.minor a) (Version.minor b)) eqn:E2;
        try discriminate.
      apply String.compare_eq_iff in E1, E2, H.
      destruct a, b. simpl in *. congruence.
    + intros ->.
      assert (R : forall x : string, String.compare x x = Eq).
      { induction x as [|c x IH]; simpl; [reflexivity|].
        rewrite IH.
        replace (Ascii.compare c c) with Eq; [reflexivity|].
        symmetry. unfold Ascii.compare. apply N.compare_refl. }
      rewrite !R. reflexivity.
  - reflexivity.
  - unfold VersionOrder.cmp.
    rewrite (String.compare_antisym (Version.major a) (Version.major b)).
    rewrite (String.compare_antisym (Version.minor a) (Version.minor b)).
    rewrite (String.compare_antisym (Version.revision a) (Version.revision b)).
    destruct (String.compare (Version.major b) (Version.major a));
      destruct (String.compare (Version.minor b) (Version.minor a));
      destruct (String.compare (Version.revision b) (Version.revision a));
      reflexivity.
Qed.

(** ** The handlers of the versioned routes *)

(** X4: a search handler calls the backend exactly when the version is
    current, the method is POST and the content type is the protocol's; it
    then calls it once, with the data of the request, and answers with what
    the backend returned as a 200 response of the protocol's media type, or
    lets through what the backend raised.  In every other case the state is
    left as it was. *)
Theorem handleFlaskPostRequest_calls_backend (app : App) (version : string)
    (request : Request) (operation : string) (w : World) :
  let called :=
    Version.isCurrentVersion (protocol_version app) version = Ok true
    /\ method request = "POST" /\ mimetype request = MIMETYPE in
  (called ->
   fst (handleFlaskPostRequest app version request operation w)
   = match backend app operation (get_data request) with
     | Ok responseStr => Ok (FlaskResponse responseStr 200 MIMETYPE [])
     | Raise e => Raise e
     end
   /\ backendCalls (snd (handleFlaskPostRequest app version request operation w))
      = backendCalls w ++ [(operation, get_data request)])
  /\ (~ called ->
      snd (handleFlaskPostRequest app version request operation w) = w).
Proof.
  cbv zeta. split.
  - intros (Hv & Hm & Ht).
    split; [|apply handleFlaskPostRequest_post; assumption].
    unfold handleFlaskPostRequest, assertCorrectVersion, handleHttpPost,
      bind, lift, ret, call_backend.
    rewrite Hv, Hm, Ht. cbn.
    destruct (backend app operation (get_data request)); reflexivity.
  - intros Hn.
    unfold handleFlaskPostRequest, assertCorrectVersion, handleHttpPost,
      bind, lift, ret, raise, call_backend.
    destruct (Version.isCurrentVersion (protocol_version app) version)
      as [[|]|e] eqn:Hv; cbn; try reflexivity.
    destruct (String.eqb (method request) "POST") eqn:Hm; cbn.
    + destruct (String.eqb (mimetype request) MIMETYPE) eqn:Ht; cbn;
        [|reflexivity].
      exfalso. apply Hn. apply String.eqb_eq in Hm, Ht. auto.
    + destruct (String.eqb (method request) "OPTIONS"); reflexivity.
Qed.

Lemma handleFlaskPostRequest_calls_backend_witness :
  backendCalls
    (snd (handleFlaskPostRequest Sample.app "v0.5.1" (Sample.search ["ds1"])
            "searchReads" Sample.world))
  = backendCalls Sample.world
    ++ [("searchReads", get_data (Sample.search ["ds1"]))].
Proof.
  apply (handleFlaskPostRequest_calls_backend Sample.app "v0.5.1"
           (Sample.search ["ds1"]) "searchReads" Sample.world).
  repeat split; reflexivity.
Defined.

(** X5: the refusals of a search handler, in the order the code makes
    them: a version that is not the current one fails with
    VersionNotSupported whatever the method and content type; then OPTIONS
    gets the preflight answer whatever the content type, and a method other
    than POST and OPTIONS fails with MethodNotAllowed; only then a POST with
    another content type fails with UnsupportedMediaType. *)
Theorem handleFlaskPostRequest_refusals (app : App) (version : string)
    (request : Request) (operation : string) (w : World) :
  (Version.isCurrentVersion (protocol_version app) version = Ok false ->
   handleFlaskPostRequest app version request operation w
   = (Raise VersionNotSupportedException, w))
  /\ (Version.isCurrentVersion (protocol_version app) version = Ok true ->
      (method request = "OPTIONS" ->
       handleFlaskPostRequest app version request operation w
       = (Ok (FlaskResponse "" 200 MIMETYPE
                [("Access-Control-Request-Methods", "GET,POST,OPTIONS")]), w))
      /\ (method request <> "POST" -> method request <> "OPTIONS" ->
          handleFlaskPostRequest app version request operation w
          = (Raise MethodNotAllowedException, w))
      /\ (method request = "POST" -> mimetype request <> MIMETYPE ->
          handleFlaskPostRequest app version request operation w
          = (Raise UnsupportedMediaTypeException, w))).
Proof.
  unfold handleFlaskPostRequest, assertCorrectVersion, handleHttpPost,
    bind, lift, ret, raise.
  split.
  - intros ->. reflexivity.
  - intros ->. cbn. split; [|split].
    + intros ->. reflexivity.
    + intros Hp Ho. apply String.eqb_neq in Hp, Ho. rewrite Hp, Ho.
      reflexivity.
    + intros -> Ht. apply String.eqb_neq in Ht. rewrite Ht. reflexivity.
Qed.

(** X6: a get handler calls the backend exactly when the version is
    current and the method is GET, once and with the identifier of the path;
    with a current version every other method, HEAD too, fails with
    MethodNotAllowed, and a version that is not the current one fails with
    VersionNotSupported whatever the method. *)
Theorem handleFlaskGetRequest_outcomes (app : App) (version id_ : string)
    (request : Request) (operation : string) (w : World) :
  (Version.isCurrentVersion (protocol_version app) version = Ok false ->
   handleFlaskGetRequest app version id_ request operation w
   = (Raise VersionNotSupportedException, w))
  /\ (Version.isCurrentVersion (protocol_version app) version = Ok true ->
      (method request <> "GET" ->
       handleFlaskGetRequest app version id_ request operation w
       = (Raise MethodNotAllowedException, w))
      /\ (method request = "GET" ->
          fst (handleFlaskGetRequest app version id_ request operation w)
          = match backend app operation id_ with
            | Ok responseStr => Ok (FlaskResponse responseStr 200 MIMETYPE [])
            | Raise e => Raise e
            end
          /\ backendCalls
               (snd (handleFlaskGetRequest app version id_ request operation w))
             = backendCalls w ++ [(operation, id_)])).
Proof.
  unfold handleFlaskGetRequest, assertCorrectVersion, handleHttpGet,
    bind, lift, ret, raise, call_backend.
  split.
  - intros ->. reflexivity.
  - intros ->. cbn. split.
    + intros Hg. apply String.eqb_neq in Hg. rewrite Hg. reflexivity.
    + intros ->. cbn. destruct (backend app operation id_); split; reflexivity.
Qed.

(** X7: a version string whose pieces are not three (and that is not the
    sentinel) makes the search and the get handlers raise the [TypeError] of
    the parse, not VersionNotSupported, whatever the method, and without a
    call of the backend; the index handler turns the same error into
    PathNotFound. *)
Theorem malformed_version_in_handlers (app : App) (version id_ : string)
    (request : Request) (operation : string) (w : World) :
  version <> Version.currentString ->
  length (Version.components version) <> 3 ->
  handleFlaskPostRequest app version request operation w = (Raise TypeError, w)
  /\ handleFlaskGetRequest app version id_ request operation w
     = (Raise TypeError, w)
  /\ indexRedirect app version = Raise PathNotFoundException.
Proof.
  intros Hs Hl.
  assert (Hv : Version.isCurrentVersion (protocol_version app) version
               = Raise TypeError).
  { rewrite (isCurrentVersion_parsed _ _ Hs).
    rewrite (parseString_not_three _ Hl). reflexivity. }
  unfold handleFlaskPostRequest, handleFlaskGetRequest, assertCorrectVersion,
    indexRedirect, bind, lift.
  rewrite Hv. repeat split; reflexivity.
Qed.

Lemma malformed_version_in_handlers_witness :
  handleFlaskGetRequest Sample.app "v1" "x" (Sample.search []) "getReference"
    Sample.world
  = (Raise TypeError, Sample.world).
Proof.
  apply (malformed_version_in_handlers Sample.app "v1" "x" (Sample.search [])
           "getReference" Sample.world); [discriminate|].
  vm_compute. lia.
Defined.

(** ** What the gate does to a request *)

Ltac run_frontend :=
  unfold checkAuthentication, checkDatasets, startLogin, oidcCallback,
    full_dispatch_request, msg_getitem, bind, lift, get, raise, ret, draw,
    new_list, set_session, set_tokenMap, modify.

Ltac split_cases :=
  repeat match goal with
         | |- context [match ?x with _ => _ end] =>
             lazymatch x with
             | context [match _ with _ => _ end] => fail
             | _ => destruct x eqn:?
             end;
             cbn [fst snd tokenMap permissions session draws objects
                    backendCalls s_state s_nonce s_key s_userId isRedirect]
         end.

Lemma checkAuthentication_effects (app : App) (request : Request) (w : World) :
  backendCalls (snd (checkAuthentication app request w)) = backendCalls w
  /\ match fst (checkAuthentication app request w) with
     | Ok None =>
         session (snd (checkAuthentication app request w)) = session w
         /\ draws (snd (checkAuthentication app request w)) = draws w
     | Ok (Some response) =>
         args_contains request "key" = false
         /\ isRedirect response = true
         /\ draws (snd (checkAuthentication app request w)) = S (S (draws w))
         /\ session (snd (checkAuthentication app request w))
            = {| s_state := Some (rndstr app SECRET_KEY_LENGTH (draws w));
                 s_nonce := Some (rndstr app SECRET_KEY_LENGTH (S (draws w)));
                 s_key := s_key (session w);
                 s_userId := s_userId (session w) |}
     | Raise _ => True
     end.
Proof.
  run_frontend. split_cases; auto; try discriminate.
Qed.

Lemma full_dispatch_blocked (app : App) (request : Request) (w : World)
    (view : M Response) :
  fst (checkAuthentication app request w) <> Ok None ->
  full_dispatch_request app request view w
  = (match fst (checkAuthentication app request w) with
     | Ok (Some response) => Ok response
     | Ok None => Raise TypeError
     | Raise e => Raise e
     end, snd (checkAuthentication app request w)).
Proof.
  intros H. unfold full_dispatch_request, bind at 1.
  destruct (checkAuthentication app request w) as [[[r|]|e] w'];
    simpl in *; try reflexivity.
  exfalso. apply H. reflexivity.
Qed.

(** X8: the gate never calls the backend; when it passes, the session and
    the random source are as they were; the only response it gives itself is
    a redirect, given to a request without a [key] parameter after two draws
    that are stored as the state and the nonce of the session; and when it
    does not pass, the view is not run, whatever the view is. *)
Theorem gate_effects (app : App) (request : Request) (w : World) :
  backendCalls (snd (checkAuthentication app request w)) = backendCalls w
  /\ (fst (checkAuthentication app request w) = Ok None ->
      session (snd (checkAuthentication app request w)) = session w
      /\ draws (snd (checkAuthentication app request w)) = draws w)
  /\ (forall response : Response,
        fst (checkAuthentication app request w) = Ok (Some response) ->
        args_contains request "key" = false
        /\ isRedirect response = true
        /\ session (snd (checkAuthentication app request w))
           = {| s_state := Some (rndstr app SECRET_KEY_LENGTH (draws w));
                s_nonce := Some (rndstr app SECRET_KEY_LENGTH (S (draws w)));
                s_key := s_key (session w);
                s_userId := s_userId (session w) |})
  /\ (fst (checkAuthentication app request w) <> Ok None ->
      forall view : M Response,
        backendCalls (snd (full_dispatch_request app request view w))
        = backendCalls w).
Proof.
  destruct (checkAuthentication_effects app request w) as [Hb He].
  split; [exact Hb|]. split; [|split].
  - intros H. rewrite H in He. exact He.
  - intros response H. rewrite H in He. tauto.
  - intros H view. rewrite (full_dispatch_blocked app request w view H).
    exact Hb.
Qed.

(** X9: a caller whose token resolves to a user that the permission table
    does not know, asking for datasets, is refused with NotAuthenticated
    carrying the user, and the view is not run: the state is as it was. *)
Theorem unknown_user_is_refused (app : App) (client : OidcClient)
    (request : Request) (w : World) (entry : TokenEntry)
    (d : list (string * pyval)) (requested : pyval) (user : string) :
  oidcClient app = Some client ->
  endpoint request <> Some "oidcCallback" ->
  tokenMap_get w (Py.or_ (s_key (session w)) (args_get request "key"))
  = Some entry ->
  get_json request = Ok (PDict d) ->
  Py.assoc "datasetIds" d = Some requested ->
  userId entry = PStr user ->
  permissions w !! user = None ->
  forall view : M Response,
    full_dispatch_request app request view w
    = (Raise (NotAuthenticatedException (Some user)), w).
Proof.
  intros Hc Hg Hk Hj Hd Hu Hp view.
  assert (Hgate : checkAuthentication app request w
                  = (Raise (NotAuthenticatedException (Some user)), w)).
  { rewrite (checkAuthentication_gated app client Hc request Hg w), Hk.
    rewrite (checkDatasets_unknown_user entry request w (PDict d) Hj).
    - rewrite Hu. reflexivity.
    - assert (Ht : Py.truthy (PDict d) = true)
        by (destruct d; [discriminate Hd | reflexivity]).
      rewrite Ht. cbn [Py.contains]. rewrite Hd. reflexivity.
    - rewrite Hu. cbn [permissions_get]. rewrite Hp. reflexivity. }
  unfold full_dispatch_request, bind. rewrite Hgate. reflexivity.
Qed.

Lemma unknown_user_is_refused_witness :
  full_dispatch_request Sample.app (Sample.search ["ds1"])
    (searchVariantSets Sample.app (Sample.search ["ds1"]) "v0.5.1")
    {| tokenMap := tokenMap Sample.world; permissions := ∅;
       session := session Sample.world; draws := 0; objects := 0;
       backendCalls := [] |}
  = (Raise (NotAuthenticatedException (Some "alice@example.org")),
     {| tokenMap := tokenMap Sample.world; permissions := ∅;
        session := session Sample.world; draws := 0; objects := 0;
        backendCalls := [] |}).
Proof.
  apply (unknown_user_is_refused Sample.app Sample.client
           (Sample.search ["ds1"]) _ Sample.alice
           [("datasetIds", PList [PStr "ds1"])] (PList [PStr "ds1"])
           "alice@example.org");
    [reflexivity | discriminate | vm_compute; reflexivity | reflexivity
    | reflexivity | reflexivity | vm_compute; reflexivity].
Defined.

(** X10: what the gate makes of the body of a request whose token
    resolves.  An exception of [get_json] is the gate's; a body that is
    empty, null, or an object without [datasetIds] passes with the state
    untouched; a number or [true] is a [TypeError]; so is, for a user the
    table knows, a list that holds the string "datasetIds", and a
    [datasetIds] value that cannot be iterated. *)
Theorem gate_body_cases (app : App) (client : OidcClient) (request : Request)
    (w : World) (entry : TokenEntry) (userDatasets : list string) :
  oidcClient app = Some client ->
  endpoint request <> Some "oidcCallback" ->
  tokenMap_get w (Py.or_ (s_key (session w)) (args_get request "key"))
  = Some entry ->
  permissions_get w (userId entry) = Ok (Some userDatasets) ->
  (forall e : exn,
      get_json request = Raise e ->
      checkAuthentication app request w = (Raise e, w))
  /\ (forall body : pyval,
        get_json request = Ok body -> Py.truthy body = false ->
        checkAuthentication app request w = (Ok None, w))
  /\ (forall d : list (string * pyval),
        get_json request = Ok (PDict d) -> Py.assoc "datasetIds" d = None ->
        checkAuthentication app request w = (Ok None, w))
  /\ (forall body : pyval,
        get_json request = Ok body -> Py.truthy body = true ->
        (exists n, body = PInt n) \/ (exists b, body = PBool b) ->
        checkAuthentication app request w = (Raise TypeError, w))
  /\ (forall l : list pyval,
        get_json request = Ok (PList l) -> In (PStr "datasetIds") l ->
        checkAuthentication app request w = (Raise TypeError, w))
  /\ (forall (d : list (string * pyval)) (requested : pyval),
        get_json request = Ok (PDict d) ->
        Py.assoc "datasetIds" d = Some requested ->
        Py.iter requested = Raise TypeError ->
        checkAuthentication app request w = (Raise TypeError, w)).
Proof.
  intros Hc Hg Hk Hp.
  rewrite (checkAuthentication_gated app client Hc request Hg w), Hk.
  unfold checkDatasets, bind, lift, get, raise, ret.
  split; [|split; [|split; [|split; [|split]]]].
  - intros e ->. reflexivity.
  - intros body -> ->. reflexivity.
  - intros d -> Hd. destruct d as [|kv d]; [reflexivity|].
    cbn [Py.truthy Py.contains]. rewrite Hd. reflexivity.
  - intros body -> Ht [[n ->]|[b ->]]; rewrite Ht; reflexivity.
  - intros l -> Hin.
    assert (Ht : Py.truthy (PList l) = true) by (destruct l; [destruct Hin | reflexivity]).
    rewrite Ht. cbn [Py.contains].
    assert (He : existsb (Py.is_str "datasetIds") l = true).
    { apply existsb_exists. exists (PStr "datasetIds"). split; [exact Hin|].
      reflexivity. }
    rewrite He, Hp. reflexivity.
  - intros d requested -> Hd Hi.
    assert (Ht : Py.truthy (PDict d) = true)
      by (destruct d; [discriminate Hd | reflexivity]).
    rewrite Ht. cbn [Py.contains Py.getitem]. rewrite Hd, Hp, Hi. reflexivity.
Qed.

Lemma gate_body_cases_witness :
  checkAuthentication Sample.app
    {| method := "POST"; endpoint := Some "searchReads"; args := [];
       mimetype := MIMETYPE;
       get_data := "[" +:+ Sample.quote "datasetIds" +:+ "]";
       get_json := Ok (PList [PStr "datasetIds"]) |} Sample.world
  = (Raise TypeError, Sample.world).
Proof.
  destruct (gate_body_cases Sample.app Sample.client
              {| method := "POST"; endpoint := Some "searchReads";
                 args := []; mimetype := MIMETYPE;
                 get_data := "[" +:+ Sample.quote "datasetIds" +:+ "]";
                 get_json := Ok (PList [PStr "datasetIds"]) |}
              Sample.world Sample.alice ["ds1"])
    as (_ & _ & _ & _ & H & _);
    [reflexivity | discriminate | vm_compute; reflexivity
    | vm_compute; reflexivity |].
  apply (H [PStr "datasetIds"]); [reflexivity | left; reflexivity].
Defined.

(** ** The login and the callback *)

(** X11: [startLogin] draws twice and stores the first draw as the state
    and the second as the nonce of the session, before anything can fail, and
    so also when the provider client fails; it keeps the key and the user of
    the session, the token map and the backend log; and the redirect it
    answers with is the one the provider client built for exactly that state
    and nonce and the first redirect URI. *)
Theorem startLogin_stores_state_and_nonce (app : App) (client : OidcClient)
    (w : World) :
  let st := rndstr app SECRET_KEY_LENGTH (draws w) in
  let nn := rndstr app SECRET_KEY_LENGTH (S (draws w)) in
  snd (startLogin app client w)
  = {| tokenMap := tokenMap w; permissions := permissions w;
       session := {| s_state := Some st; s_nonce := Some nn;
                     s_key := s_key (session w);
                     s_userId := s_userId (session w) |};
       draws := S (S (draws w)); objects := objects w;
       backendCalls := backendCalls w |}
  /\ (forall response : Response,
        fst (startLogin app client w) = Ok response ->
        exists uri url : string,
          response = Redirect url
          /\ first_redirect_uri client = Ok uri
          /\ do_authorization_request client
               {| a_client_id := client_id client; a_response_type := "code";
                  a_scope := ["openid"; "profile"; "email"]; a_nonce := nn;
                  a_redirect_uri := uri; a_state := st |} st = Ok url).
Proof.
  cbv zeta. run_frontend. cbn.
  destruct (first_redirect_uri client) as [uri|e] eqn:Hu; cbn.
  - destruct (do_authorization_request client _ _) as [url|e] eqn:Hr; cbn.
    + split; [reflexivity|]. intros response H. injection H as <-.
      exists uri, url. auto.
    + split; [reflexivity|]. discriminate.
  - split; [reflexivity|]. discriminate.
Qed.

(** The state after a callback that succeeded. *)
Lemma oidcCallback_Ok_world (app : App) (request : Request) (w : World)
    (response : Response) :
  fst (oidcCallback app request w) = Ok response ->
  exists entry : TokenEntry,
    snd (oidcCallback app request w)
    = {| tokenMap :=
           <[rndstr app SECRET_KEY_LENGTH (draws w) := entry]> (tokenMap w);
         permissions := permissions w;
         session :=
           {| s_state := s_state (session w); s_nonce := s_nonce (session w);
              s_key := Some (rndstr app SECRET_KEY_LENGTH (draws w));
              s_userId := Some (userId entry) |};
         draws := S (draws w); objects := objects w;
         backendCalls := backendCalls w |}
    /\ Py.eq_optstr (state entry) (s_state (session w)) = true.
Proof.
  run_frontend. split_cases; try discriminate; intros _;
    match goal with
    | |- context [insert _ ?e (tokenMap w)] => exists e
    end;
    (split; [reflexivity|]); cbn [state];
    match goal with
    | H : (_ || _) = false |- _ =>
        apply orb_false_elim in H; destruct H as [_ H];
        apply negb_false_iff in H; exact H
    end.
Qed.

(** X12: the callback issues a token only after every check has held: a
    callback that succeeds had OIDC configured; the provider client parsed
    the query to an authorization response whose state is the state of the
    session; the access-token request made with that state and the code of
    that response returned an access-token response whose id token carries
    the nonce of the session; the user-info request returned an email; and
    the record stored under the newly drawn key is made of exactly these: the
    code, the state, that access-token response, the email as user and that
    user info. *)
Theorem oidcCallback_issues_only_verified (app : App) (request : Request)
    (w : World) (response : Response) :
  fst (oidcCallback app request w) = Ok response ->
  exists (client : OidcClient) (aresp atr info : Message)
         (respState authCode idToken tokenNonce user : pyval) (uri : string),
    oidcClient app = Some client
    /\ parse_response client (dict_of_items (args request)) = Ok aresp
    /\ isAuthorizationResponse aresp = true
    /\ Py.getitem (PDict (to_dict aresp)) "state" = Ok respState
    /\ Py.eq_optstr respState (s_state (session w)) = true
    /\ Py.getitem (PDict (to_dict aresp)) "code" = Ok authCode
    /\ first_redirect_uri client = Ok uri
    /\ do_access_token_request client respState
         {| t_code := authCode; t_redirect_uri := uri;
            t_client_id := client_id client;
            t_client_secret := client_secret client |} = Ok atr
    /\ isAccessTokenResponse atr = true
    /\ Py.getitem (PDict (to_dict atr)) "id_token" = Ok idToken
    /\ Py.getitem idToken "nonce" = Ok tokenNonce
    /\ Py.eq_optstr tokenNonce (s_nonce (session w)) = true
    /\ do_user_info_request client respState = Ok info
    /\ Py.getitem (PDict (to_dict info)) "email" = Ok user
    /\ tokenMap (snd (oidcCallback app request w))
       !! rndstr app SECRET_KEY_LENGTH (draws w)
       = Some {| code := authCode; state := respState;
                 accessTokenResponse := PDict (to_dict atr);
                 userId := user; userInfo := info |}.
Proof.
  run_frontend. split_cases; try discriminate; intros _;
    repeat match goal with
           | H : (_ || _) = false |- _ =>
               apply orb_false_elim in H; destruct H as [? ?]
           | H : negb _ = false |- _ => apply negb_false_iff in H
           end;
    do 10 eexists;
    repeat apply conj;
    first [eassumption | apply lookup_insert_eq | reflexivity].
Qed.

Lemma oidcCallback_issues_only_verified_witness :
  exists entry : TokenEntry,
    tokenMap
      (snd (oidcCallback Sample.app
              (Sample.callback [("code", "c"); ("state", "state0")])
              Sample.login_world))
    !! Sample.source SECRET_KEY_LENGTH 2 = Some entry.
Proof.
  destruct (oidcCallback_issues_only_verified Sample.app
              (Sample.callback [("code", "c"); ("state", "state0")])
              Sample.login_world (Redirect "http://server:8000/"))
    as (client & aresp & atr & info & respState & authCode & idToken
        & tokenNonce & user & uri & H);
    [vm_compute; reflexivity|].
  destruct H as (_ & _ & _ & _ & _ & _ & _ & _ & _ & _ & _ & _ & _ & _ & Ht).
  eexists. exact Ht.
Defined.

(** X13: after a callback that succeeded, the session holds the new key
    and the user of the record stored under it, and the gate takes every
    later request of that session, to any endpoint but the callback, straight
    to the dataset check with that record: no login, no refusal for want of a
    token (the random source returning strings of the length asked for). *)
Theorem fresh_login_passes_gate (app : App) (request : Request) (w : World)
    (response : Response) :
  sized app ->
  fst (oidcCallback app request w) = Ok response ->
  exists entry : TokenEntry,
    s_key (session (snd (oidcCallback app request w)))
    = Some (rndstr app SECRET_KEY_LENGTH (draws w))
    /\ s_userId (session (snd (oidcCallback app request w)))
       = Some (userId entry)
    /\ tokenMap (snd (oidcCallback app request w))
       !! rndstr app SECRET_KEY_LENGTH (draws w) = Some entry
    /\ forall later : Request,
        endpoint later <> Some "oidcCallback" ->
        checkAuthentication app later (snd (oidcCallback app request w))
        = checkDatasets entry later (snd (oidcCallback app request w)).
Proof.
  intros Hs Hok.
  destruct (oidcCallback_Ok_world app request w response Hok)
    as (entry & Hw & _).
  exists entry. rewrite Hw. cbn [session s_key s_userId tokenMap].
  split; [reflexivity|]. split; [reflexivity|].
  split; [apply lookup_insert_eq|].
  intros later Hg.
  destruct (oidcClient app) as [client|] eqn:Hc.
  - rewrite (checkAuthentication_gated app client Hc later Hg).
    cbn [session s_key tokenMap].
    assert (Ht : PyStr.truthy (rndstr app SECRET_KEY_LENGTH (draws w)) = true).
    { pose proof (Hs SECRET_KEY_LENGTH (draws w)) as Hl.
      destruct (rndstr app SECRET_KEY_LENGTH (draws w));
        [discriminate Hl | reflexivity]. }
    unfold Py.or_. rewrite Ht. cbn [tokenMap_get tokenMap].
    rewrite lookup_insert_eq. reflexivity.
  - unfold oidcCallback in Hok. rewrite Hc in Hok. discriminate Hok.
Qed.

Lemma sample_sized : sized Sample.app.
Proof.
  intros size i. cbn [rndstr Sample.app]. unfold Sample.source.
  generalize (pretty i). induction size as [|n IH]; intros s; [reflexivity|].
  destruct s; simpl; rewrite IH; reflexivity.
Qed.

Lemma fresh_login_passes_gate_witness :
  exists entry : TokenEntry,
    checkAuthentication Sample.app (Sample.search ["ds1"])
      (snd (oidcCallback Sample.app
              (Sample.callback [("code", "c"); ("state", "state0")])
              Sample.login_world))
    = checkDatasets entry (Sample.search ["ds1"])
        (snd (oidcCallback Sample.app
                (Sample.callback [("code", "c"); ("state", "state0")])
                Sample.login_world)).
Proof.
  destruct (fresh_login_passes_gate Sample.app
              (Sample.callback [("code", "c"); ("state", "state0")])
              Sample.login_world (Redirect "http://server:8000/")
              sample_sized)
    as (entry & _ & _ & _ & H); [vm_compute; reflexivity|].
  exists entry. apply H. discriminate.
Defined.

(** X14: a callback that fails has changed nothing, with one exception:
    when the user info has no [email], the key has been drawn and put into
    the session before the [KeyError], while the token map has no record for
    it. *)
Theorem oidcCallback_failure_effects (app : App) (request : Request)
    (w : World) (e : exn) :
  fst (oidcCallback app request w) = Raise e ->
  snd (oidcCallback app request w) = w
  \/ (e = KeyError "email"
      /\ snd (oidcCallback app request w)
         = {| tokenMap := tokenMap w; permissions := permissions w;
              session :=
                {| s_state := s_state (session w);
                   s_nonce := s_nonce (session w);
                   s_key := Some (rndstr app SECRET_KEY_LENGTH (draws w));
                   s_userId := s_userId (session w) |};
              draws := S (draws w); objects := objects w;
              backendCalls := backendCalls w |}).
Proof.
  run_frontend. split_cases; try discriminate; intros H;
    try (left; reflexivity).
  right. split; [|reflexivity].
  injection H as <-.
  match goal with
  | H : Py.getitem (PDict _) "email" = Raise _ |- _ =>
      unfold Py.getitem in H;
      destruct (Py.assoc "email" _); [discriminate H|];
      injection H as <-; reflexivity
  end.
Qed.

Lemma oidcCallback_failure_effects_witness :
  snd (oidcCallback Sample.app (Sample.callback [("state", "forged")])
         Sample.login_world)
  = Sample.login_world.
Proof.
  destruct (oidcCallback_failure_effects Sample.app
              (Sample.callback [("state", "forged")]) Sample.login_world
              (NotAuthenticatedException None)) as [H|[H _]];
    [vm_compute; reflexivity | exact H | discriminate H].
Defined.

Lemma assoc_app {A} (k : string) (l1 l2 : list (string * A)) :
  Py.assoc k (l1 ++ l2)
  = match Py.assoc k l1 with
    | Some v => Some v
    | None => Py.assoc k l2
    end.
Proof.
  induction l1 as [|[k' v] l1 IH]; simpl; [reflexivity|].
  destruct (String.eqb k k'); [reflexivity | exact IH].
Qed.

Lemma fold_insert_lookup (items : list (string * string)) :
  forall (d : gmap string string) (k : string),
    fold_left (fun d kv => <[fst kv := snd kv]> d) items d !! k
    = match Py.assoc k (rev items) with
      | Some v => Some v
      | None => d !! k
      end.
Proof.
  induction items as [|[k' v] items IH]; intros d k; simpl; [reflexivity|].
  rewrite IH, assoc_app. destruct (Py.assoc k (rev items)); [reflexivity|].
  simpl. destruct (String.eqb k k') eqn:E.
  - apply String.eqb_eq in E. subst k'. apply lookup_insert_eq.
  - apply String.eqb_neq in E. apply lookup_insert_ne. congruence.
Qed.

(** X15: of a query parameter given more than once, the dict that the
    callback hands to the provider client keeps the last value, while
    [args.get], which the gate reads the key with, gives the first; the two
    agree on which parameters are present. *)
Theorem callback_parameters_last_wins (request : Request) (k : string) :
  dict_of_items (args request) !! k = Py.assoc k (rev (args request))
  /\ args_get request k = Py.assoc k (args request)
  /\ (is_Some (dict_of_items (args request) !! k)
      <-> args_contains request k = true).
Proof.
  assert (H : dict_of_items (args request) !! k
              = Py.assoc k (rev (args request))).
  { unfold dict_of_items. rewrite fold_insert_lookup.
    destruct (Py.assoc k (rev (args request))); [reflexivity|].
    apply lookup_empty. }
  split; [exact H|]. split; [reflexivity|].
  rewrite H. unfold args_contains, args_get.
  assert (Hin : forall l : list (string * string),
             is_Some (Py.assoc k l) <-> exists v, In (k, v) l).
  { induction l as [|[k' v] l IH]; simpl.
    - split; [intros [x Hx]; discriminate | intros [v []]].
    - destruct (String.eqb k k') eqn:E.
      + apply String.eqb_eq in E. subst k'. split; eauto.
      + apply String.eqb_neq in E. rewrite IH.
        split; intros [x Hx]; exists x; [right; exact Hx|].
        destruct Hx as [Hx|Hx]; [congruence | exact Hx]. }
  rewrite Hin.
  split.
  - intros [v Hv]. apply in_rev in Hv.
    destruct (Py.assoc k (args request)) eqn:E; [reflexivity|].
    assert (Hs : is_Some (Py.assoc k (args request)))
      by (apply Hin; eauto).
    rewrite E in Hs. destruct Hs as [x Hx]. discriminate.
  - intros Hc. destruct (Py.assoc k (args request)) eqn:E; [|discriminate].
    assert (Hs : is_Some (Py.assoc k (args request))) by (rewrite E; eauto).
    apply Hin in Hs. destruct Hs as [v Hv]. exists v.
    apply in_rev. rewrite rev_involutive. exact Hv.
Qed.

(** X16: given a random source that returns strings of the length asked
    for, the gate, the handlers and the callback all keep every key of the
    token map at the length of a minted key; the empty token map that
    [configure] starts with has the property. *)
Theorem token_keys_stay_sized (app : App) (request : Request) (w : World) :
  sized app ->
  keys_sized w ->
  keys_sized (snd (checkAuthentication app request w))
  /\ keys_sized (snd (oidcCallback app request w))
  /\ (forall version id_ operation : string,
        keys_sized (snd (handleFlaskPostRequest app version request operation w))
        /\ keys_sized
             (snd (handleFlaskGetRequest app version id_ request operation w)))
  /\ (forall w0 : World, tokenMap w0 = ∅ -> keys_sized w0).
Proof.
  intros Hs Hk. unfold keys_sized in *.
  split; [|split; [|split]].
  - destruct (keeps_checkAuthentication app request w) as [-> _]. exact Hk.
  - destruct (oidcCallback_tokenMap app request w) as [_ Ht].
    destruct (fst (oidcCallback app request w)).
    + destruct Ht as [entry ->]. intros k e.
      destruct (decide (rndstr app SECRET_KEY_LENGTH (draws w) = k)) as [<-|Hne].
      * intros _. apply Hs.
      * rewrite lookup_insert_ne by exact Hne. apply Hk.
    + rewrite Ht. exact Hk.
  - intros version id_ operation. split.
    + destruct (keeps_handleFlaskPostRequest app version request operation w)
        as [-> _]. exact Hk.
    + destruct (keeps_handleFlaskGetRequest app version id_ request operation w)
        as [-> _]. exact Hk.
  - intros w0 -> k e H. rewrite lookup_empty in H. discriminate.
Qed.

Lemma token_keys_stay_sized_witness :
  keys_sized
    (snd (oidcCallback Sample.app
            (Sample.callback [("code", "c"); ("state", "state0")])
            {| tokenMap := ∅; permissions := ∅;
               session := session Sample.login_world; draws := 2;
               objects := 0; backendCalls := [] |})).
Proof.
  destruct (token_keys_stay_sized Sample.app
              (Sample.callback [("code", "c"); ("state", "state0")])
              {| tokenMap := ∅; permissions := ∅;
                 session := session Sample.login_world; draws := 2;
                 objects := 0; backendCalls := [] |} sample_sized)
    as (_ & H & _); [|exact H].
  intros k e H. cbn [tokenMap] in H. rewrite lookup_empty in H. discriminate.
Defined.

(** ** The rule table *)

Ltac crack H :=
  repeat (cbv beta iota in H;
          match type of H with
          | (if String.eqb ?a ?b then _ else _) = _ =>
              let E := fresh "E" in
              destruct (String.eqb a b) eqn:E;
              [apply String.eqb_eq in E | discriminate H]
          | (if PyStr.truthy ?a then _ else _) = _ =>
              let E := fresh "T" in
              destruct (PyStr.truthy a) eqn:E; [|discriminate H]
          | match Routing.to_python ?c ?x with _ => _ end = _ =>
              let E := fresh "P" in
              destruct (Routing.to_python c x) eqn:E; [|discriminate H]
          | match Routing.match_parts ?ps ?segs with _ => _ end = _ =>
              let E := fresh "M" in
              destruct (Routing.match_parts ps segs) eqn:E; [|discriminate H]
          end).

Section Table.
Import Routing RouteTable.

Lemma match_parts_overlap (ps : list Part) :
  forall (qs : list Part) (segs : list string) (a b : list (string * string)),
    match_parts ps segs = Some a ->
    match_parts qs segs = Some b ->
    overlap ps qs = true.
Proof.
  induction ps as [|p ps IH]; intros qs segs a b Ha Hb.
  - destruct segs; [|discriminate Ha].
    destruct qs as [|q qs];
      [reflexivity | destruct q as [t|[| |its] n]; discriminate Hb].
  - destruct segs as [|seg segs];
      [destruct p as [t|[| |its] n]; discriminate Ha|].
    destruct qs as [|q qs]; [discriminate Hb|].
    cbn [overlap].
    destruct (is_path p) eqn:Ep; [reflexivity|].
    destruct (is_path q) eqn:Eq; [reflexivity|].
    cbn [orb]. apply andb_true_intro.
    destruct p as [t1|[| |i1] n1]; try discriminate Ep;
      destruct q as [t2|[| |i2] n2]; try discriminate Eq;
      cbn [match_parts] in Ha, Hb; cbn [compatible];
      crack Ha; crack Hb; subst;
      (split; [|eapply IH; eassumption]);
      unfold accepts; rewrite ?String.eqb_refl;
      repeat match goal with
             | H : PyStr.truthy _ = true |- _ => rewrite H
             | H : to_python _ _ = Ok _ |- _ => rewrite H
             end;
      reflexivity.
Qed.

Lemma rule_match_parts (r : Rule) (path : string) (rv : list (string * string)) :
  rule_match r path = Some rv ->
  match_parts (parts_of r) (segments path) = Some rv.
Proof.
  unfold rule_match, parts_of.
  destruct (parse_rule (rule r)); [tauto | discriminate].
Qed.

Lemma rule_match_overlap (r1 r2 : Rule) (path : string)
    (a b : list (string * string)) :
  rule_match r1 path = Some a -> rule_match r2 path = Some b ->
  overlap (parts_of r1) (parts_of r2) = true.
Proof.
  intros H1 H2. apply rule_match_parts in H1, H2.
  eapply match_parts_overlap; eassumption.
Qed.

Lemma callback_rule_path (r : Rule) (path : string)
    (rv : list (string * string)) :
  rule r = callback_rule -> rule_match r path = Some rv ->
  segments path = ["oauth2callback"].
Proof.
  unfold rule_match. intros ->.
  change (parse_rule callback_rule) with (Some [Static "oauth2callback"]).
  destruct (segments path) as [|seg [|seg' segs]]; cbn [match_parts];
    try discriminate.
  - destruct (String.eqb "oauth2callback" seg) eqn:E; [|discriminate].
    apply String.eqb_eq in E. subst seg. reflexivity.
  - destruct (String.eqb "oauth2callback" seg); discriminate.
Qed.

Lemma static_rule_path (r : Rule) (path : string)
    (rv : list (string * string)) :
  rule r = static_rule -> rule_match r path = Some rv ->
  under_static path = true.
Proof.
  unfold rule_match, under_static. intros ->.
  change (parse_rule static_rule)
    with (Some [Static "static"; Dynamic PathConverter "filename"]).
  destruct (segments path) as [|seg segs]; cbn [match_parts];
    [discriminate|].
  destruct (String.eqb "static" seg) eqn:E; [|discriminate].
  apply String.eqb_eq in E. subst seg. reflexivity.
Qed.

Variables (meth path : string).

(** The loop returns the target that all rules matching path and method
    agree on, when there is one. *)
Lemma match_rules_first (name : string) (rv0 : list (string * string))
    (rules : list Rule) :
  forall have : list string,
    (forall r rv, In r rules -> rule_match r path = Some rv ->
                  has_method meth (methods r) = true ->
                  rv = rv0 /\ endpoint r = name) ->
    (exists r rv, In r rules /\ rule_match r path = Some rv
                  /\ has_method meth (methods r) = true) ->
    match_rules rules meth path have = Matched name rv0.
Proof.
  induction rules as [|r rules IH]; intros have Hall (r0 & rv & Hin & Hm & Hh).
  - destruct Hin.
  - simpl. destruct (rule_match r path) as [rv'|] eqn:E.
    + destruct (has_method meth (methods r)) eqn:Eh.
      * destruct (Hall r rv' (or_introl eq_refl) E Eh) as [-> ->].
        reflexivity.
      * apply IH.
        -- intros r' rv'' Hr'. apply Hall. right. exact Hr'.
        -- exists r0, rv. split; [|auto].
           destruct Hin as [<-|Hin]; [congruence | exact Hin].
    + apply IH.
      * intros r' rv'' Hr'. apply Hall. right. exact Hr'.
      * exists r0, rv. split; [|auto].
        destruct Hin as [<-|Hin]; [congruence | exact Hin].
Qed.

Lemma match_rules_none (rules : list Rule) :
  (forall r, In r rules -> rule_match r path = None) ->
  match_rules rules meth path [] = NotFound.
Proof.
  induction rules as [|r rules IH]; intros Hall; [reflexivity|].
  simpl. rewrite (Hall r (or_introl eq_refl)). apply IH.
  intros r' Hr'. apply Hall. right. exact Hr'.
Qed.

End Table.

Lemma table_unambiguous (m : string) :
  m = "GET" \/ m = "POST" ->
  forall r1 r2 : Routing.Rule,
    In r1 Routing.url_map -> In r2 Routing.url_map ->
    RouteTable.unambiguous m r1 r2 = true.
Proof.
  intros Hm r1 r2 H1 H2.
  assert (H : forallb (fun a => forallb (RouteTable.unambiguous m a)
                                  Routing.url_map) Routing.url_map = true).
  { destruct Hm as [-> | ->]; vm_compute; reflexivity. }
  rewrite forallb_forall in H. specialize (H r1 H1).
  rewrite forallb_forall in H. exact (H r2 H2).
Qed.

(** The target of a path and method that a registered rule matches. *)
Lemma resolve_by_table (rules : list Routing.Rule)
    (m path : string) (r : Routing.Rule) (rv : list (string * string)) :
  Permutation rules Routing.url_map ->
  m = "GET" \/ m = "POST" ->
  Routing.segments path <> ["oauth2callback"] ->
  RouteTable.under_static path = false ->
  In r Routing.url_map ->
  Routing.rule_match r path = Some rv ->
  Routing.has_method m (Routing.methods r) = true ->
  Routing.resolve rules m path = Routing.Matched (Routing.endpoint r) rv.
Proof.
  intros Hperm Hm Hpath Hstatic Hr Hmatch Hmeth.
  unfold Routing.resolve. apply match_rules_first.
  - intros r' rv' Hin' Hmatch' Hmeth'.
    assert (Hr' : In r' Routing.url_map)
      by (eapply Permutation_in; eassumption).
    pose proof (table_unambiguous m Hm r' r Hr' Hr) as Hu.
    unfold RouteTable.unambiguous in Hu.
    rewrite (rule_match_overlap r' r path rv' rv Hmatch' Hmatch) in Hu.
    rewrite Hmeth', Hmeth in Hu. cbn [negb andb orb] in Hu.
    repeat (apply orb_prop in Hu; destruct Hu as [Hu|Hu]).
    + apply andb_prop in Hu. destruct Hu as [E1 E2].
      apply String.eqb_eq in E1, E2. split; [|exact E2].
      unfold Routing.rule_match in Hmatch, Hmatch'.
      rewrite E1 in Hmatch'. congruence.
    + apply String.eqb_eq in Hu. exfalso. apply Hpath.
      eapply callback_rule_path; eassumption.
    + apply String.eqb_eq in Hu. exfalso. apply Hpath.
      eapply callback_rule_path; eassumption.
    + apply String.eqb_eq in Hu.
      rewrite (static_rule_path r' path rv' Hu Hmatch') in Hstatic.
      discriminate Hstatic.
    + apply String.eqb_eq in Hu.
      rewrite (static_rule_path r path rv Hu Hmatch) in Hstatic.
      discriminate Hstatic.
  - exists r, rv. split; [|auto].
    eapply Permutation_in; [apply Permutation_sym|]; eassumption.
Qed.

(** X17: but for the path of the callback and the paths under /static,
    where two rules of the table match one path, resolution does not depend
    on the order the rules are kept in: whenever a rule of the table matches
    the path and allows the method, GET or POST, the answer is that rule's
    endpoint with the arguments it takes from the path. *)
Theorem resolution_is_order_independent (rules : list Routing.Rule)
    (m path : string) (r : Routing.Rule) (rv : list (string * string)) :
  Permutation rules Routing.url_map ->
  m = "GET" \/ m = "POST" ->
  Routing.segments path <> ["oauth2callback"] ->
  RouteTable.under_static path = false ->
  In r Routing.url_map ->
  Routing.rule_match r path = Some rv ->
  Routing.has_method m (Routing.methods r) = true ->
  Routing.resolve rules m path = Routing.Matched (Routing.endpoint r) rv.
Proof.
  intros Hperm Hm Hpath Hstatic Hr Hmatch Hmeth.
  exact (resolve_by_table rules m path r rv Hperm Hm Hpath Hstatic Hr Hmatch
           Hmeth).
Qed.

Lemma resolution_is_order_independent_witness :
  Routing.resolve (rev Routing.url_map) "GET" "/v0.5.1/references/r1/bases"
  = Routing.Matched "listReferenceBases" [("version", "v0.5.1"); ("id", "r1")].
Proof.
  apply (resolution_is_order_independent (rev Routing.url_map) "GET"
           "/v0.5.1/references/r1/bases"
           (Routing.DisplayedRoute "/<version>/references/<id>/bases" false
              "listReferenceBases"));
    [apply Permutation_sym, Permutation_rev | left; reflexivity
    | vm_compute; discriminate | vm_compute; reflexivity | vm_compute; tauto
    | vm_compute; reflexivity | reflexivity].
Defined.

Lemma truthy_nonempty (s : string) : s <> "" -> PyStr.truthy s = true.
Proof. destruct s; [congruence | reflexivity]. Qed.

(** A rule whose shape is version, literal, identifier. *)
Lemma id_rule_match (r : Routing.Rule) (path v lit i : string)
    (conv : Routing.Converter) :
  Routing.parse_rule (Routing.rule r)
  = Some [Routing.Dynamic Routing.UnicodeConverter "version";
          Routing.Static lit; Routing.Dynamic conv "id"] ->
  Routing.segments path = [v; lit; i] ->
  v <> "" -> i <> "" ->
  RouteTable.accepts conv i = true ->
  Routing.rule_match r path = Some [("version", v); ("id", i)].
Proof.
  intros Hp Hs Hv Hi Ha. unfold Routing.rule_match. rewrite Hp, Hs.
  cbn [Routing.match_parts Routing.to_python].
  rewrite (truthy_nonempty v Hv), String.eqb_refl.
  unfold RouteTable.accepts in Ha.
  destruct conv as [| |items]; cbn in Ha |- *.
  - rewrite (truthy_nonempty i Hi). reflexivity.
  - rewrite (truthy_nonempty i Hi). reflexivity.
  - rewrite (truthy_nonempty i Hi).
    destruct (Routing.in_items i items); [discriminate Ha | reflexivity].
Qed.

(** A rule whose shape is version, literal, literal. *)
Lemma search_rule_match (r : Routing.Rule) (path v lit1 lit2 : string) :
  Routing.parse_rule (Routing.rule r)
  = Some [Routing.Dynamic Routing.UnicodeConverter "version";
          Routing.Static lit1; Routing.Static lit2] ->
  Routing.segments path = [v; lit1; lit2] ->
  v <> "" ->
  Routing.rule_match r path = Some [("version", v)].
Proof.
  intros Hp Hs Hv. unfold Routing.rule_match. rewrite Hp, Hs.
  cbn [Routing.match_parts Routing.to_python].
  rewrite (truthy_nonempty v Hv), !String.eqb_refl. reflexivity.
Qed.

(** When a registered rule matches the path and no rule that can match a
    path of that rule allows the method, the method is refused. *)
Lemma refused_by_table (rules : list Routing.Rule) (m path : string)
    (r0 : Routing.Rule) (rv0 : list (string * string)) :
  Permutation rules Routing.url_map ->
  RouteTable.under_static path = false ->
  In r0 Routing.url_map ->
  Routing.rule_match r0 path = Some rv0 ->
  forallb (RouteTable.refuses m r0) Routing.url_map = true ->
  exists valid : list string,
    Routing.resolve rules m path = Routing.MethodNotAllowed valid.
Proof.
  intros Hperm Hstatic Hr0 Hm0 Htable. unfold Routing.resolve.
  apply match_rules_refused.
  - intros r Hr.
    assert (Hr' : In r Routing.url_map)
      by (eapply Permutation_in; eassumption).
    destruct (Routing.rule_match r path) as [rv|] eqn:E; [right | left; reflexivity].
    rewrite forallb_forall in Htable. specialize (Htable r Hr').
    unfold RouteTable.refuses in Htable.
    rewrite (rule_match_overlap r r0 path rv rv0 E Hm0) in Htable.
    cbn [negb orb] in Htable.
    apply orb_prop in Htable. destruct Htable as [Htable|Htable].
    + apply andb_prop in Htable.
      destruct Htable as [H1 H2]. apply negb_true_iff in H1.
      split; [exact H1|]. destruct (Routing.methods r); [discriminate H2|].
      discriminate.
    + apply String.eqb_eq in Htable.
      rewrite (static_rule_path r path rv Htable E) in Hstatic.
      discriminate Hstatic.
  - right. exists r0. split; [|congruence].
    eapply Permutation_in; [apply Permutation_sym|]; eassumption.
Qed.

Lemma versioned_not_static (path v : string) (rest : list string) :
  Routing.segments path = v :: rest -> v <> "static" ->
  RouteTable.under_static path = false.
Proof.
  intros Hs Hv. unfold RouteTable.under_static. rewrite Hs.
  apply String.eqb_neq. exact Hv.
Qed.

Ltac with_rule text k :=
  let found := eval vm_compute in
    (List.find (fun r => String.eqb (Routing.rule r) text) Routing.url_map) in
  lazymatch found with
  | Some ?r => k r
  end.

(** X18: for each of the six get-by-id routes declared with the exclusion
    converter, in every order of the rules, for every version segment other
    than "static" (under which the rule for static files matches too) and
    every identifier: GET resolves to the get-by-id endpoint with that
    identifier when the identifier is not "search", and is refused with
    MethodNotAllowed when it is. *)
Theorem excluding_routes_resolve (rules : list Routing.Rule)
    (coll name path v i : string) :
  Permutation rules Routing.url_map ->
  In (coll, name) RouteTable.excluding_routes ->
  Routing.segments path = [v; coll; i] ->
  v <> "" -> v <> "static" -> i <> "" ->
  (i <> "search" ->
   Routing.resolve rules "GET" path
   = Routing.Matched name [("version", v); ("id", i)])
  /\ (i = "search" ->
      exists valid : list string,
        Routing.resolve rules "GET" path = Routing.MethodNotAllowed valid).
Proof.
  intros Hperm Hin Hs Hv Hvs Hi.
  assert (Hpath : Routing.segments path <> ["oauth2callback"])
    by (rewrite Hs; discriminate).
  pose proof (versioned_not_static path v _ Hs Hvs) as Hstatic.
  cbn [RouteTable.excluding_routes In] in Hin.
  split.
  - intros Hne.
    assert (Ha : RouteTable.accepts (Routing.NoConverter ["search"]) i = true).
    { unfold RouteTable.accepts, Routing.to_python, Routing.in_items.
      cbn [existsb]. apply String.eqb_neq in Hne. rewrite Hne. reflexivity. }
    destruct Hin as [Hin|[Hin|[Hin|[Hin|[Hin|[Hin|[]]]]]]];
      injection Hin as <- <-;
      match goal with
      | Hs : Routing.segments path = [_; ?c; _] |- _ =>
          with_rule ("/<version>/" +:+ c +:+ "/<no(search):id>")
            ltac:(fun r =>
              apply (resolve_by_table rules "GET" path r
                       _ Hperm (or_introl eq_refl) Hpath Hstatic);
              [vm_compute; tauto
              | eapply id_rule_match; [vm_compute; reflexivity | eassumption ..]
              | reflexivity])
      end.
  - intros ->.
    destruct Hin as [Hin|[Hin|[Hin|[Hin|[Hin|[Hin|[]]]]]]];
      injection Hin as <- <-;
      match goal with
      | Hs : Routing.segments path = [_; ?c; _] |- _ =>
          with_rule ("/<version>/" +:+ c +:+ "/search")
            ltac:(fun r =>
              apply (refused_by_table rules "GET" path r [("version", v)]
                       Hperm Hstatic);
              [vm_compute; tauto
              | eapply search_rule_match;
                [vm_compute; reflexivity | eassumption ..]
              | vm_compute; reflexivity])
      end.
Qed.

Lemma excluding_routes_resolve_witness :
  Routing.resolve (rev Routing.url_map) "GET" "/v0.5.1/datasets/d7"
  = Routing.Matched "getDataset" [("version", "v0.5.1"); ("id", "d7")].
Proof.
  destruct (excluding_routes_resolve (rev Routing.url_map) "datasets"
              "getDataset" "/v0.5.1/datasets/d7" "v0.5.1" "d7") as [H _];
    [apply Permutation_sym, Permutation_rev | vm_compute; tauto | reflexivity
    | discriminate | discriminate | discriminate |].
  apply H. discriminate.
Defined.

(** X19: the two get-by-id routes declared with a plain identifier beside
    a search route do take "search" as an identifier: in every order of the
    rules and for every version segment other than "static", GET on the
    search path resolves to the get-by-id endpoint with id = search, while
    POST resolves to the search endpoint. *)
Theorem plain_id_routes_capture_search (rules : list Routing.Rule)
    (coll getter searcher path v : string) :
  Permutation rules Routing.url_map ->
  In (coll, getter, searcher) RouteTable.capturing_routes ->
  Routing.segments path = [v; coll; "search"] ->
  v <> "" -> v <> "static" ->
  Routing.resolve rules "GET" path
  = Routing.Matched getter [("version", v); ("id", "search")]
  /\ Routing.resolve rules "POST" path
     = Routing.Matched searcher [("version", v)].
Proof.
  intros Hperm Hin Hs Hv Hvs.
  assert (Hpath : Routing.segments path <> ["oauth2callback"])
    by (rewrite Hs; discriminate).
  pose proof (versioned_not_static path v _ Hs Hvs) as Hstatic.
  cbn [RouteTable.capturing_routes In] in Hin.
  destruct Hin as [Hin|[Hin|[]]]; injection Hin as <- <- <-; split;
    match goal with
    | |- Routing.resolve _ "GET" _ = _ =>
        match goal with
        | Hs : Routing.segments path = [_; ?c; _] |- _ =>
            with_rule ("/<version>/" +:+ c +:+ "/<id>")
              ltac:(fun r =>
                apply (resolve_by_table rules "GET" path r
                         _ Hperm (or_introl eq_refl) Hpath Hstatic);
                [vm_compute; tauto
                | eapply id_rule_match;
                  [vm_compute; reflexivity | eassumption | eassumption
                  | discriminate | reflexivity]
                | reflexivity])
        end
    | |- Routing.resolve _ "POST" _ = _ =>
        match goal with
        | Hs : Routing.segments path = [_; ?c; _] |- _ =>
            with_rule ("/<version>/" +:+ c +:+ "/search")
              ltac:(fun r =>
                apply (resolve_by_table rules "POST" path r
                         _ Hperm (or_intror eq_refl) Hpath Hstatic);
                [vm_compute; tauto
                | eapply search_rule_match;
                  [vm_compute; reflexivity | eassumption ..]
                | reflexivity])
        end
    end.
Qed.

Lemma plain_id_routes_capture_search_witness :
  Routing.resolve (rev Routing.url_map) "GET" "/v0.5.1/references/search"
  = Routing.Matched "getReference" [("version", "v0.5.1"); ("id", "search")].
Proof.
  destruct (plain_id_routes_capture_search (rev Routing.url_map) "references"
              "getReference" "searchReferences" "/v0.5.1/references/search"
              "v0.5.1") as [H _];
    [apply Permutation_sym, Permutation_rev | vm_compute; tauto | reflexivity
    | discriminate | discriminate |].
  exact H.
Defined.

Lemma match_parts_length (ps : list Routing.Part) :
  forall (segs : list string) (rv : list (string * string)),
    Routing.match_parts ps segs = Some rv ->
    existsb RouteTable.is_path ps = false ->
    length ps = length segs.
Proof.
  induction ps as [|p ps IH]; intros segs rv H Hp.
  - destruct segs; [reflexivity | discriminate H].
  - destruct segs as [|seg segs];
      [destruct p as [t|[| |its] n]; discriminate H|].
    cbn [existsb] in Hp. apply orb_false_elim in Hp. destruct Hp as [Hp Hps].
    destruct p as [t|[| |its] n]; try discriminate Hp;
      cbn [Routing.match_parts] in H; crack H;
      simpl; f_equal; eauto.
Qed.

Lemma match_parts_empty_segment (ps : list Routing.Part) :
  forall (segs : list string) (rv : list (string * string)),
    Routing.match_parts ps segs = Some rv ->
    existsb RouteTable.is_path ps = false ->
    In "" segs ->
    existsb RouteTable.is_static_empty ps = true.
Proof.
  induction ps as [|p ps IH]; intros segs rv H Hp Hin.
  - destruct segs; [destruct Hin | discriminate H].
  - destruct segs as [|seg segs]; [destruct Hin|].
    cbn [existsb] in Hp. apply orb_false_elim in Hp. destruct Hp as [Hp Hps].
    destruct p as [t|[| |its] n]; try discriminate Hp;
      cbn [Routing.match_parts] in H; crack H;
      cbn [existsb RouteTable.is_static_empty].
    + subst t. destruct Hin as [->|Hin]; [reflexivity|].
      rewrite (IH segs rv H Hps Hin). apply orb_true_r.
    + destruct Hin as [->|Hin]; [discriminate|]. eauto.
    + destruct Hin as [->|Hin]; [discriminate|]. eauto.
Qed.

(** X20: in every order of the rules and for every method, a path that is
    not under /static and has more than five segments, or an empty segment
    (a doubled or a trailing slash) without being the root, matches no rule:
    the answer is NotFound. *)
Theorem unroutable_paths (rules : list Routing.Rule) (m path : string) :
  Permutation rules Routing.url_map ->
  RouteTable.under_static path = false ->
  5 < length (Routing.segments path)
  \/ (In "" (Routing.segments path) /\ Routing.segments path <> [""]) ->
  Routing.resolve rules m path = Routing.NotFound.
Proof.
  intros Hperm Hstatic Hbad. unfold Routing.resolve. apply match_rules_none.
  intros r Hr.
  assert (Hr' : In r Routing.url_map) by (eapply Permutation_in; eassumption).
  assert (Htable :
    forallb (fun r => String.eqb (Routing.rule r) RouteTable.static_rule
                      || (negb (existsb RouteTable.is_path
                                  (RouteTable.parts_of r))
                          && Nat.leb (length (RouteTable.parts_of r)) 5
                          && (negb (existsb RouteTable.is_static_empty
                                      (RouteTable.parts_of r))
                              || Nat.eqb (length (RouteTable.parts_of r)) 1)))
      Routing.url_map = true) by (vm_compute; reflexivity).
  rewrite forallb_forall in Htable. specialize (Htable r Hr').
  destruct (Routing.rule_match r path) as [rv|] eqn:E; [|reflexivity].
  exfalso.
  apply orb_prop in Htable. destruct Htable as [Hst|Htable].
  - apply String.eqb_eq in Hst.
    rewrite (static_rule_path r path rv Hst E) in Hstatic.
    discriminate Hstatic.
  - apply andb_prop in Htable. destruct Htable as [Htable Hempty].
    apply andb_prop in Htable. destruct Htable as [Hnp Hlen].
    apply negb_true_iff in Hnp. apply Nat.leb_le in Hlen.
    apply rule_match_parts in E.
    pose proof (match_parts_length _ _ _ E Hnp) as Hl.
    destruct Hbad as [Hlong|[Hin Hne]]; [lia|].
    rewrite (match_parts_empty_segment _ _ _ E Hnp Hin) in Hempty.
    cbn [negb orb] in Hempty. apply Nat.eqb_eq in Hempty.
    rewrite Hl in Hempty.
    destruct (Routing.segments path) as [|seg [|seg' segs]];
      try discriminate Hempty.
    destruct Hin as [->|[]]. apply Hne. reflexivity.
Qed.

Lemma unroutable_paths_witness :
  Routing.resolve Routing.url_map "GET" "/v0.5.1/references/r1/"
  = Routing.NotFound.
Proof.
  apply (unroutable_paths Routing.url_map "GET" "/v0.5.1/references/r1/");
    [apply Permutation_refl | vm_compute; reflexivity |].
  right. split; [vm_compute; tauto | vm_compute; discriminate].
Defined.

(** ** More of the gate *)

(** X21: a caller whose token resolves to a user that the permission table
    knows is never refused for the datasets asked for: whatever the body of
    the request and whatever the permitted set, the gate passes or, for a
    body it cannot take apart, raises [TypeError]; the refusal of line 412 is
    never reached.  A pass leaves all but the count of objects made as it
    was. *)
Theorem known_user_never_refused (app : App) (client : OidcClient)
    (request : Request) (w : World) (entry : TokenEntry) (body : pyval)
    (userDatasets : list string) :
  oidcClient app = Some client ->
  endpoint request <> Some "oidcCallback" ->
  tokenMap_get w (Py.or_ (s_key (session w)) (args_get request "key"))
  = Some entry ->
  permissions_get w (userId entry) = Ok (Some userDatasets) ->
  get_json request = Ok body ->
  (fst (checkAuthentication app request w) = Ok None
   \/ fst (checkAuthentication app request w) = Raise TypeError)
  /\ tokenMap (snd (checkAuthentication app request w)) = tokenMap w
  /\ session (snd (checkAuthentication app request w)) = session w
  /\ backendCalls (snd (checkAuthentication app request w)) = backendCalls w.
Proof.
  intros Hc Hg Hk Hp Hj.
  rewrite (checkAuthentication_gated app client Hc request Hg w), Hk.
  unfold checkDatasets, bind, lift, get, raise, ret, new_list.
  rewrite Hj.
  destruct (Py.contains "datasetIds" (if Py.truthy body then body else PDict []))
    as [[|]|e] eqn:Ec; cbn.
  - rewrite Hp.
    destruct (Py.getitem (if Py.truthy body then body else PDict [])
                "datasetIds") as [requested|e] eqn:Eg; cbn.
    + destruct (Py.iter requested) as [datasets|e] eqn:Ei; cbn.
      * unfold py_is. cbn [identity].
        replace (Nat.eqb (objects w) (S (objects w))) with false
          by (symmetry; apply Nat.eqb_neq; lia).
        cbn. auto.
      * assert (e = TypeError) as ->
          by (destruct requested; cbn in Ei; congruence).
        auto.
    + assert (e = TypeError) as ->.
      { destruct (if Py.truthy body then body else PDict []) as [| | | | |d];
          cbn in Ec, Eg; try congruence.
        destruct (Py.assoc "datasetIds" d); congruence. }
      auto.
  - auto.
  - assert (e = TypeError) as ->
      by (destruct (if Py.truthy body then body else PDict []);
          cbn in Ec; congruence).
    auto.
Qed.

Lemma known_user_never_refused_witness :
  fst (checkAuthentication Sample.app (Sample.search ["ds7"; "ds8"])
         Sample.world)
  = Ok None
  \/ fst (checkAuthentication Sample.app (Sample.search ["ds7"; "ds8"])
            Sample.world)
     = Raise TypeError.
Proof.
  eapply (known_user_never_refused Sample.app Sample.client
            (Sample.search ["ds7"; "ds8"]) Sample.world Sample.alice _ ["ds1"]);
    [reflexivity | discriminate | vm_compute; reflexivity
    | vm_compute; reflexivity | reflexivity].
Defined.

(** X22: the key of the query is read only when the session has no key or
    an empty one, and then decides alone; a session key that the token map
    does not know hides the key of the query, so a request that also carries
    a valid [key] parameter is refused with NotAuthenticated, with no login
    started and the state untouched. *)
Theorem stale_session_key_hides_query_key (app : App) (client : OidcClient)
    (request : Request) (w : World) :
  oidcClient app = Some client ->
  endpoint request <> Some "oidcCallback" ->
  (forall (k k' : string),
      s_key (session w) = Some k -> k <> "" -> tokenMap w !! k = None ->
      args_get request "key" = Some k' ->
      checkAuthentication app request w
      = (Raise (NotAuthenticatedException None), w))
  /\ (forall (k' : string) (entry : TokenEntry),
        s_key (session w) = None \/ s_key (session w) = Some "" ->
        args_get request "key" = Some k' ->
        tokenMap w !! k' = Some entry ->
        checkAuthentication app request w = checkDatasets entry request w).
Proof.
  intros Hc Hg.
  rewrite (checkAuthentication_gated app client Hc request Hg w).
  split.
  - intros k k' Hk Hne Ht Ha.
    rewrite Hk. unfold Py.or_. rewrite (truthy_nonempty k Hne).
    cbn [tokenMap_get]. rewrite Ht.
    unfold args_contains. rewrite Ha. reflexivity.
  - intros k' entry Hk Ha Ht.
    assert (Hor : Py.or_ (s_key (session w)) (args_get request "key")
                  = Some k')
      by (destruct Hk as [-> | ->]; cbn; exact Ha).
    rewrite Hor. cbn [tokenMap_get]. rewrite Ht. reflexivity.
Qed.

Lemma stale_session_key_hides_query_key_witness :
  checkAuthentication Sample.app
    (with_args (Sample.search ["ds1"]) [("key", "tok")])
    {| tokenMap := tokenMap Sample.world;
       permissions := permissions Sample.world;
       session := {| s_state := None; s_nonce := None;
                     s_key := Some "stale"; s_userId := None |};
       draws := 0; objects := 0; backendCalls := [] |}
  = (Raise (NotAuthenticatedException None),
     {| tokenMap := tokenMap Sample.world;
        permissions := permissions Sample.world;
        session := {| s_state := None; s_nonce := None;
                      s_key := Some "stale"; s_userId := None |};
        draws := 0; objects := 0; backendCalls := [] |}).
Proof.
  destruct (stale_session_key_hides_query_key Sample.app Sample.client
              (with_args (Sample.search ["ds1"]) [("key", "tok")])
              {| tokenMap := tokenMap Sample.world;
                 permissions := permissions Sample.world;
                 session := {| s_state := None; s_nonce := None;
                               s_key := Some "stale"; s_userId := None |};
                 draws := 0; objects := 0; backendCalls := [] |})
    as [H _]; [reflexivity | discriminate |].
  apply (H "stale" "tok");
    [reflexivity | discriminate | vm_compute; reflexivity | reflexivity].
Defined.
